(** * kafkaconnect_utils: the Connect manager and the Schema Registry manager

    A shallow embedding of [connect_manager.py] and
    [schema_registry_manager.py].  Python values decoded from JSON are an
    inductive type, Python exceptions are an enumeration, and every method
    is a function in a state-and-exception monad whose state records the
    HTTP requests sent and the seconds slept. *)

From Stdlib Require Import String Ascii List ZArith Bool Lia DecimalString.
Import ListNotations.

Local Open Scope string_scope.
Local Open Scope list_scope.

Set Warnings "-register-all".

(** ** Python values, exceptions and the builtins the managers use *)

Module Py.

(** The values that [json] decoding produces.  A [dict] keeps its entries in
    insertion order, as Python does; its keys are strings.  Characters are
    the code points below 256. *)
Inductive pyval : Type :=
| PNone
| PBool (b : bool)
| PInt (n : Z)
| PStr (s : string)
| PList (l : list pyval)
| PDict (d : list (string * pyval)).

(** The exception classes that can leave a method of either manager. *)
Inductive exn : Type :=
| ValueError
| TypeError
| KeyError
| IndexError
| AttributeError
| JSONDecodeError            (* raised by [r.json()] on a body that is not JSON *)
| RequestsConnectionError    (* requests.exceptions.ConnectionError *)
| HTTPError                  (* requests.exceptions.HTTPError *)
| NoConnectServerAvailable   (* exceptions.py, derives from ConnectionError *)
| NoSchemaRegistryAvailable  (* exceptions.py, derives from ConnectionError *)
| NoConnectorAvailable       (* exceptions.py, derives from HTTPError *)
| SchemaParseException.      (* avro.schema *)

(** Why an evaluation of the embedding stopped without a Python result:
    the fuel given to a [while True] loop ran out, or the run needs [str()]
    of a container, whose [repr] text is outside the embedding. *)
Inductive limit : Type := OutOfFuel | OutOfModel.

Inductive outcome (A : Type) : Type :=
| Ret (a : A)
| Exc (e : exn)
| Stop (l : limit).

Arguments Ret {A} a.
Arguments Exc {A} e.
Arguments Stop {A} l.

Definition obind {A B} (m : outcome A) (k : A -> outcome B) : outcome B :=
  match m with
  | Ret a => k a
  | Exc e => Exc e
  | Stop l => Stop l
  end.

Declare Scope py_scope.
Delimit Scope py_scope with py.
Notation "x <- m ;; k" := (obind m (fun x => k))
  (at level 61, m at next level, right associativity) : py_scope.

Local Open Scope py_scope.

Fixpoint omap {A B} (f : A -> outcome B) (l : list A) : outcome (list B) :=
  match l with
  | [] => Ret []
  | x :: l' => y <- f x ;; ys <- omap f l' ;; Ret (y :: ys)
  end.

(** *** Strings *)

(** [needle in hay] for two strings. *)
Fixpoint contains (needle hay : string) : bool :=
  if String.prefix needle hay then true
  else match hay with
       | EmptyString => false
       | String _ hay' => contains needle hay'
       end.

(** [s.split(sep)] for a separator of one character, which is what every
    call in the managers passes. *)
Fixpoint split (sep : ascii) (s : string) : list string :=
  match s with
  | EmptyString => [EmptyString]
  | String c s' =>
      if Ascii.eqb c sep then EmptyString :: split sep s'
      else match split sep s' with
           | [] => [String c EmptyString]
           | piece :: pieces => String c piece :: pieces
           end
  end.

(** Iterating over a string yields its characters as strings of length 1. *)
Definition chars (s : string) : list string :=
  map (fun c => String c EmptyString) (list_ascii_of_string s).

(** [str(n)] for an integer. *)
Definition str_of_Z (n : Z) : string := NilZero.string_of_int (Z.to_int n).

(** *** Dictionaries *)

Definition dict := list (string * pyval).

Fixpoint dict_get (d : dict) (k : string) : option pyval :=
  match d with
  | [] => None
  | (k', v) :: d' => if String.eqb k' k then Some v else dict_get d' k
  end.

(** [d[k] = v]: an existing key keeps its position, a new one goes last. *)
Fixpoint dict_set (d : dict) (k : string) (v : pyval) : dict :=
  match d with
  | [] => [(k, v)]
  | (k', v') :: d' =>
      if String.eqb k' k then (k, v) :: d' else (k', v') :: dict_set d' k v
  end.

Definition dict_has (d : dict) (k : string) : bool :=
  match dict_get d k with Some _ => true | None => false end.

(** *** Operators on values *)

(** [v[k]] with a string key. *)
Definition get_item (v : pyval) (k : string) : outcome pyval :=
  match v with
  | PDict d => match dict_get d k with Some x => Ret x | None => Exc KeyError end
  | _ => Exc TypeError
  end.

(** [v[k] = x] with a string key; the updated container is returned. *)
Definition set_item (v : pyval) (k : string) (x : pyval) : outcome pyval :=
  match v with
  | PDict d => Ret (PDict (dict_set d k x))
  | _ => Exc TypeError
  end.

(** [v == s] for a string literal [s]. *)
Definition eq_str (v : pyval) (s : string) : bool :=
  match v with
  | PStr t => String.eqb t s
  | _ => false
  end.

(** [needle in v] for a string [needle]: substring of a string, element of
    a list, key of a dict. *)
Definition py_in (needle : string) (v : pyval) : outcome bool :=
  match v with
  | PStr s => Ret (contains needle s)
  | PList l => Ret (existsb (fun x => eq_str x needle) l)
  | PDict d => Ret (dict_has d needle)
  | _ => Exc TypeError
  end.

(** [v.split(sep)]: only strings have the method. *)
Definition py_split (v : pyval) (sep : ascii) : outcome (list string) :=
  match v with
  | PStr s => Ret (split sep s)
  | _ => Exc AttributeError
  end.

(** [l[i]], negative indices counting from the end. *)
Definition py_index {A} (l : list A) (i : Z) : outcome A :=
  let n := Z.of_nat (length l) in
  let j := if (i <? 0)%Z then (i + n)%Z else i in
  if (j <? 0)%Z then Exc IndexError
  else match nth_error l (Z.to_nat j) with
       | Some x => Ret x
       | None => Exc IndexError
       end.

(** [for x in v]: the characters of a string, the elements of a list, the
    keys of a dict. *)
Definition py_iter (v : pyval) : outcome (list pyval) :=
  match v with
  | PStr s => Ret (map PStr (chars s))
  | PList l => Ret l
  | PDict d => Ret (map (fun kv => PStr (fst kv)) d)
  | _ => Exc TypeError
  end.

(** [f"{v}"]. *)
Definition py_format (v : pyval) : outcome string :=
  match v with
  | PStr s => Ret s
  | PInt n => Ret (str_of_Z n)
  | PBool true => Ret "True"
  | PBool false => Ret "False"
  | PNone => Ret "None"
  | PList _ | PDict _ => Stop OutOfModel
  end.

(** [len(v)]. *)
Definition py_len (v : pyval) : outcome Z :=
  match v with
  | PStr s => Ret (Z.of_nat (String.length s))
  | PList l => Ret (Z.of_nat (length l))
  | PDict d => Ret (Z.of_nat (length d))
  | _ => Exc TypeError
  end.

(** [isinstance(v, int)]; [bool] is a subclass of [int]. *)
Definition isinstance_int (v : pyval) : bool :=
  match v with
  | PInt _ | PBool _ => true
  | _ => false
  end.

(** [max(v)] over a list of integers, the payload the registry sends for a
    subject's versions; an empty list raises [ValueError].  Ordering other
    element types is outside the embedding. *)
Fixpoint max_ints (best : Z) (l : list pyval) : outcome Z :=
  match l with
  | [] => Ret best
  | PInt n :: l' => max_ints (if (best <? n)%Z then n else best) l'
  | _ :: _ => Stop OutOfModel
  end.

Definition py_max (v : pyval) : outcome pyval :=
  match v with
  | PList [] => Exc ValueError
  | PList (PInt n :: l) => m <- max_ints n l ;; Ret (PInt m)
  | PList (_ :: _) => Stop OutOfModel
  | PStr EmptyString => Exc ValueError
  | PDict [] => Exc ValueError
  | PStr _ | PDict _ => Stop OutOfModel
  | _ => Exc TypeError
  end.

End Py.

(** ** The HTTP exchanges: [requests] and [time.sleep] *)

Module Http.
Import Py.
Local Open Scope py_scope.

Inductive Method : Type := GET | POST | PUT | DELETE.

Record Request : Type := {
  verb : Method;
  url : string;
  headers : list (string * string);
  json_arg : option pyval            (* the [json=] keyword argument *)
}.

(** What the managers read of a [requests.Response]: the status code and
    the body as [r.json()] decodes it ([None] when it is not JSON). *)
Record Response : Type := {
  status_code : Z;
  body : option pyval
}.

(** The remote end answers the n-th request of a run, or cannot be reached,
    in which case [requests] raises its [ConnectionError]. *)
Inductive Answer : Type :=
| Unreachable
| Replied (r : Response).

Definition Server := nat -> Request -> Answer.

Inductive Event : Type :=
| Sent (rq : Request)
| Slept (seconds : Z).

(** The observable history of a run, oldest event first. *)
Definition World := list Event.

Definition requests_sent (w : World) : nat :=
  length (filter (fun e => match e with Sent _ => true | Slept _ => false end) w).

(** Computations that first read the history and then extend it. *)
Definition M (A : Type) : Type := World -> outcome A * World.

Definition ret {A} (a : A) : M A := fun w => (Ret a, w).
Definition raise {A} (e : exn) : M A := fun w => (Exc e, w).
Definition stop {A} (l : limit) : M A := fun w => (Stop l, w).
Definition lift {A} (o : outcome A) : M A := fun w => (o, w).

Definition bind {A B} (m : M A) (k : A -> M B) : M B :=
  fun w =>
    match m w with
    | (Ret a, w') => k a w'
    | (Exc e, w') => (Exc e, w')
    | (Stop l, w') => (Stop l, w')
    end.

Declare Scope http_scope.
Delimit Scope http_scope with http.
Notation "x <~ m ;; k" := (bind m (fun x => k))
  (at level 61, m at next level, right associativity) : http_scope.
Local Open Scope http_scope.

(** [r.raise_for_status()]: [requests] raises [HTTPError] for the client
    and server error statuses, 400 to 599, and for no other status. *)
Definition raise_for_status (r : Response) : option exn :=
  if ((400 <=? status_code r) && (status_code r <? 600))%Z
  then Some HTTPError else None.

(** [r.json()]. *)
Definition json (r : Response) : outcome pyval :=
  match body r with
  | Some v => Ret v
  | None => Exc JSONDecodeError
  end.

(** How the two statements of every [try] block of the managers,
    [r = requests.<verb>(...)] and [r.raise_for_status()], can end. *)
Inductive Attempt : Type :=
| NoReply                               (* the verb raised ConnectionError; [r] is unbound *)
| Rejected (r : Response) (e : exn)     (* [raise_for_status] raised [e] *)
| Passed (r : Response).                (* no exception *)

Section Exchange.
Variable server : Server.

Definition attempt (rq : Request) : M Attempt :=
  fun w =>
    match server (requests_sent w) rq with
    | Unreachable => (Ret NoReply, w ++ [Sent rq])
    | Replied r =>
        match raise_for_status r with
        | Some e => (Ret (Rejected r e), w ++ [Sent rq])
        | None => (Ret (Passed r), w ++ [Sent rq])
        end
    end.

End Exchange.

(** [time.sleep(seconds)]. *)
Definition sleep (seconds : Z) : M unit :=
  fun w => (Ret tt, w ++ [Slept seconds]).

End Http.

(** ** connect_manager.py *)

Module ConnectManager.
Import Py Http.
Local Open Scope py_scope.
Local Open Scope http_scope.

(** The attributes [__init__] stores in [self]. *)
Record KafkaConnectManager : Type := {
  _manager : string;
  _manager_port : string;
  _manager_ip : string;
  _headers : list (string * string)
}.

(** [except HTTPError] also catches the subclass of exceptions.py. *)
Definition is_HTTPError (e : exn) : bool :=
  match e with
  | HTTPError | NoConnectorAvailable => true
  | _ => false
  end.

(** *** The enrichment of [get_connector_info], lines 172 to 229

    [connector_info["config"]] is never assigned, so an entry of it that
    the source reads several times in a row is bound once here. *)

Definition config_item (connector_info : pyval) (key : string) : outcome pyval :=
  config <- get_item connector_info "config" ;;
  get_item config key.

(** Lines 172 to 179: the type and the vendor. *)
Definition type_and_vendor (connector_info : pyval) : outcome pyval :=
  class <- config_item connector_info "connector.class" ;;
  is_source <- py_in "Source" class ;;
  connector_info <-
    (if is_source then set_item connector_info "type" (PStr "source")
     else
       is_sink <- py_in "Sink" class ;;
       if is_sink then set_item connector_info "type" (PStr "sink")
       else set_item connector_info "type" (PStr "undetermined")) ;;
  is_confluent <- py_in "confluent" class ;;
  if is_confluent then set_item connector_info "vendor" (PStr "Confluent")
  else Ret connector_info.

(** Lines 182 to 201: the dialect, location and database of the JDBC URL. *)
Definition jdbc_url_fields (connector_info : pyval) : outcome pyval :=
  url <- config_item connector_info "connection.url" ;;
  is_mysql <- py_in "mysql" url ;;
  if is_mysql then
    connector_info <- set_item connector_info "jdbc_type" (PStr "mysql") ;;
    by_slash <- py_split url "/" ;;
    location <- py_index by_slash 2 ;;
    connector_info <- set_item connector_info "jdbc_location" (PStr location) ;;
    by_slash <- py_split url "/" ;;
    tail <- py_index by_slash 3 ;;
    database <- py_index (split "?" tail) 0 ;;
    set_item connector_info "jdbc_database" (PStr database)
  else
  is_oracle <- py_in "oracle" url ;;
  if is_oracle then
    connector_info <- set_item connector_info "jdbc_type" (PStr "oracle") ;;
    by_at <- py_split url "@" ;;
    tail <- py_index by_at 1 ;;
    location <- py_index (split "/" tail) 0 ;;
    connector_info <- set_item connector_info "jdbc_location" (PStr location) ;;
    by_slash <- py_split url "/" ;;
    sid <- py_index by_slash (-1) ;;
    set_item connector_info "jdbc_sid" (PStr sid)
  else
  is_postgresql <- py_in "postgresql" url ;;
  if is_postgresql then
    connector_info <- set_item connector_info "jdbc_type" (PStr "postgresql") ;;
    by_slash <- py_split url "/" ;;
    location <- py_index by_slash 2 ;;
    connector_info <- set_item connector_info "jdbc_location" (PStr location) ;;
    by_slash <- py_split url "/" ;;
    database <- py_index by_slash (-1) ;;
    set_item connector_info "jdbc_database" (PStr database)
  else
  is_sqlserver <- py_in "sqlserver" url ;;
  if is_sqlserver then
    connector_info <- set_item connector_info "jdbc_type" (PStr "sqlserver") ;;
    by_semicolon <- py_split url ";" ;;
    head <- py_index by_semicolon 0 ;;
    location <- py_index (split "/" head) (-1) ;;
    connector_info <- set_item connector_info "jdbc_location" (PStr location) ;;
    by_semicolon <- py_split url ";" ;;
    last <- py_index by_semicolon (-1) ;;
    database <- py_index (split "=" last) 1 ;;
    set_item connector_info "jdbc_database" (PStr database)
  else
  is_mariadb <- py_in "mariadb" url ;;
  if is_mariadb then
    connector_info <- set_item connector_info "jdbc_type" (PStr "mariadb") ;;
    by_slash <- py_split url "/" ;;
    location <- py_index by_slash (-2) ;;
    connector_info <- set_item connector_info "jdbc_location" (PStr location) ;;
    by_slash <- py_split url "/" ;;
    database <- py_index by_slash (-1) ;;
    set_item connector_info "jdbc_database" (PStr database)
  else Ret connector_info.

(** The two lambdas of lines 210 and 211, paired as line 212 pairs them. *)
Definition key_and_value (x : pyval) : outcome (list pyval) :=
  x_key <- py_format x ;;
  x_value <- py_format x ;;
  Ret [PStr (x_key ++ "-key"); PStr (x_value ++ "-value")].

(** Lines 203 to 212: tables, topics and subjects. *)
Definition tables_topics_subjects (connector_info : pyval) : outcome pyval :=
  config <- get_item connector_info "config" ;;
  has_whitelist <- py_in "table.whitelist" config ;;
  connector_info <-
    (if has_whitelist then
       whitelist <- config_item connector_info "table.whitelist" ;;
       tables <- py_split whitelist "," ;;
       connector_info <- set_item connector_info "tables" (PList (map PStr tables)) ;;
       tables <- get_item connector_info "tables" ;;
       tables <- py_iter tables ;;
       topics <- omap (fun table =>
                         prefix <- config_item connector_info "topic.prefix" ;;
                         prefix <- py_format prefix ;;
                         table <- py_format table ;;
                         Ret (PStr (prefix ++ table))) tables ;;
       set_item connector_info "topics" (PList topics)
     else
       prefix <- config_item connector_info "topic.prefix" ;;
       connector_info <- set_item connector_info "topics" prefix ;;
       set_item connector_info "tables" (PList [])) ;;
  topics <- get_item connector_info "topics" ;;
  topics <- py_iter topics ;;
  pairs <- omap key_and_value topics ;;
  set_item connector_info "subjects" (PList (concat pairs)).

Definition JdbcSourceConnector := "io.confluent.connect.jdbc.JdbcSourceConnector".

(** Lines 180 to 229: the chain on the exact class name. *)
Definition technology (connector_info : pyval) : outcome pyval :=
  class <- config_item connector_info "connector.class" ;;
  if eq_str class JdbcSourceConnector then
    connector_info <- set_item connector_info "class" (PStr "JDBC") ;;
    connector_info <- jdbc_url_fields connector_info ;;
    tables_topics_subjects connector_info
  else if eq_str class "io.confluent.connect.activemq.ActiveMQSourceConnectorConfig" then
    set_item connector_info "class" (PStr "ActiveMQ")
  else if eq_str class "io.confluent.connect.s3.S3SinkConnector" then
    set_item connector_info "class" (PStr "S3")
  else if eq_str class "io.confluent.connect.elasticsearch.ElasticsearchSinkConnector" then
    set_item connector_info "class" (PStr "Elasticsearch")
  else if eq_str class "io.confluent.connect.hdfs.HdfsSinkConnector" then
    set_item connector_info "class" (PStr "HDFS")
  else if eq_str class "io.confluent.connect.ibm.mq.IbmMQSourceConnectorConfig" then
    set_item connector_info "class" (PStr "IBM MQ")
  else if eq_str class "io.confluent.connect.jdbc.JdbcSinkConnector" then
    set_item connector_info "class" (PStr "JDBC")
  else if eq_str class "io.confluent.connect.jms.JmsSourceConnector" then
    set_item connector_info "class" (PStr "JMS")
  else set_item connector_info "topics" (PList []).

Definition enrich (connector_info : pyval) : outcome pyval :=
  connector_info <- type_and_vendor connector_info ;;
  technology connector_info.

(** *** The methods *)

Section Methods.
Variable server : Server.
(** [json.loads], [None] when it raises. *)
Variable json_loads : string -> option pyval.

Definition endpoint (self : KafkaConnectManager) (path : string) : string :=
  "http://" ++ _manager_ip self ++ path.

Definition request (self : KafkaConnectManager) (v : Method) (path : string)
    (data : option pyval) : Request :=
  {| verb := v; url := endpoint self path; headers := _headers self; json_arg := data |}.

Definition __init__ (manager_hostname manager_port : string) : M KafkaConnectManager :=
  let self := {| _manager := manager_hostname;
                 _manager_port := manager_port;
                 _manager_ip := manager_hostname ++ ":" ++ manager_port;
                 _headers := [("accept", "application/json")] |} in
  t <~ attempt server (request self GET "" None) ;;
  match t with
  | NoReply => raise NoConnectServerAvailable
  | Rejected r e => if is_HTTPError e then ret self else raise e
  | Passed r => ret self
  end.

Definition get_connector_status (self : KafkaConnectManager) (id : string) : M pyval :=
  if (String.length id =? 0)%nat then raise ValueError else
  t <~ attempt server (request self GET ("/connectors/" ++ id ++ "/status") None) ;;
  match t with
  | NoReply => raise NoConnectServerAvailable
  | Rejected r e =>
      if is_HTTPError e then
        if (status_code r =? 404)%Z then raise NoConnectorAvailable
        else raise HTTPError
      else raise e
  | Passed r =>
      lift (status <- json r ;;
            connector <- get_item status "connector" ;;
            get_item connector "state")
  end.

(** The [while True] loop of lines 149 to 167; [fuel] bounds its turns. *)
Fixpoint fetch_connector (fuel : nat) (self : KafkaConnectManager) (id : string)
    : M Response :=
  match fuel with
  | O => stop OutOfFuel
  | S fuel' =>
      t <~ attempt server (request self GET ("/connectors/" ++ id) None) ;;
      match t with
      | NoReply => raise NoConnectServerAvailable
      | Rejected r e =>
          if is_HTTPError e then
            if (status_code r =? 404)%Z then raise NoConnectorAvailable
            else if (status_code r =? 409)%Z then
              _ <~ sleep 1 ;;
              fetch_connector fuel' self id
            else raise HTTPError
          else raise e
      | Passed r => ret r
      end
  end.

Definition get_connector_info (fuel : nat) (self : KafkaConnectManager) (id : string)
    : M pyval :=
  if (String.length id =? 0)%nat then raise ValueError else
  r <~ fetch_connector fuel self id ;;
  connector_info <~ lift (json r) ;;
  connector_info <~ lift (set_item connector_info "vendor" (PStr "Unknown")) ;;
  state <~ get_connector_status self id ;;
  connector_info <~ lift (set_item connector_info "state" state) ;;
  lift (enrich connector_info).

Definition valid_connect_types : list string := ["source"; "sink"; "all"].

(** [self.get_connector_info(connector)] for an element of the decoded
    list of names: the length test of line 147, then the text that the
    f-strings of the two URLs make of the element. *)
Definition get_connector_info_of (fuel : nat) (self : KafkaConnectManager)
    (connector : pyval) : M pyval :=
  n <~ lift (py_len connector) ;;
  if (n =? 0)%Z then raise ValueError else
  id <~ lift (py_format connector) ;;
  get_connector_info fuel self id.

(** The [for] loop of lines 99 to 102; [response] is the list built so
    far. *)
Fixpoint collect (fuel : nat) (self : KafkaConnectManager) (type_ : string)
    (connectors response : list pyval) : M (list pyval) :=
  match connectors with
  | [] => ret response
  | connector :: connectors' =>
      info <~ get_connector_info_of fuel self connector ;;
      keep <~ (if String.eqb type_ "all" then ret true
               else type <~ lift (get_item info "type") ;;
                    ret (eq_str type type_)) ;;
      collect fuel self type_ connectors'
              (if keep then response ++ [info] else response)
  end.

Definition get_connectors (fuel : nat) (self : KafkaConnectManager) (type_ : string)
    : M pyval :=
  if negb (existsb (String.eqb type_) valid_connect_types) then raise ValueError else
  t <~ attempt server (request self GET "/connectors" None) ;;
  match t with
  | NoReply => raise NoConnectServerAvailable
  | Rejected r e => raise e
  | Passed r =>
      connectors <~ lift (names <- json r ;; py_iter names) ;;
      response <~ collect fuel self type_ connectors [] ;;
      ret (PList response)
  end.

Definition load_connector (self : KafkaConnectManager) (id : string) (config : pyval)
    : M bool :=
  if (String.length id =? 0)%nat then raise ValueError else
  n <~ lift (py_len config) ;;
  if (n =? 0)%Z then raise ValueError else
  config <~ match config with
            | PStr s => match json_loads s with
                        | Some v => ret v
                        | None => raise ValueError
                        end
            | PDict _ => ret config
            | _ => raise ValueError
            end ;;
  let data := PDict [("name", PStr id); ("config", config)] in
  t <~ attempt server (request self POST "/connectors" (Some data)) ;;
  match t with
  | NoReply => raise NoConnectServerAvailable
  | Rejected r e => raise e
  | Passed r => ret true
  end.

Definition pause_connector (self : KafkaConnectManager) (id : string) : M bool :=
  if (String.length id =? 0)%nat then raise ValueError else
  t <~ attempt server (request self PUT ("/connectors/" ++ id ++ "/pause") None) ;;
  match t with
  | NoReply => raise NoConnectServerAvailable
  | Rejected r e => raise e
  | Passed r => ret true
  end.

Definition resume_connector (self : KafkaConnectManager) (id : string) : M bool :=
  if (String.length id =? 0)%nat then raise ValueError else
  t <~ attempt server (request self PUT ("/connectors/" ++ id ++ "/resume") None) ;;
  match t with
  | NoReply => raise NoConnectServerAvailable
  | Rejected r e =>
      if is_HTTPError e then
        if (status_code r =? 404)%Z then raise NoConnectorAvailable
        else raise HTTPError
      else raise e
  | Passed r => ret true
  end.

Definition restart_connector (self : KafkaConnectManager) (id : string) : M bool :=
  if (String.length id =? 0)%nat then raise ValueError else
  t <~ attempt server (request self POST ("/connectors/" ++ id ++ "/restart") None) ;;
  match t with
  | NoReply => raise NoConnectServerAvailable
  | Rejected r e =>
      if is_HTTPError e then
        if (status_code r =? 404)%Z then raise NoConnectorAvailable
        else raise HTTPError
      else raise e
  | Passed r => ret true
  end.

Definition delete_connector (self : KafkaConnectManager) (id : string) : M bool :=
  if (String.length id =? 0)%nat then raise ValueError else
  t <~ attempt server (request self DELETE ("/connectors/" ++ id ++ "/") None) ;;
  match t with
  | NoReply => raise NoConnectServerAvailable
  | Rejected r e =>
      if is_HTTPError e then
        if (status_code r =? 404)%Z then raise NoConnectorAvailable
        else raise HTTPError
      else raise e
  | Passed r => ret true
  end.

End Methods.

End ConnectManager.

(** ** schema_registry_manager.py *)

Module SchemaRegistryManager.
Import Py Http.
Local Open Scope py_scope.
Local Open Scope http_scope.

Record SchemaRegistryManager : Type := {
  _manager : string;
  _manager_port : string;
  _manager_ip : string
}.

Section Methods.
Variable server : Server.
(** [json.loads] ([None] when it raises), [json.dumps], and
    [avro.schema.Parse], of which only the exception it raises, if any, is
    observed. *)
Variable json_loads : string -> option pyval.
Variable json_dumps : pyval -> string.
Variable avro_parse : string -> option exn.

Definition endpoint (self : SchemaRegistryManager) (path : string) : string :=
  "http://" ++ _manager_ip self ++ path.

Definition request (self : SchemaRegistryManager) (v : Method) (path : string) : Request :=
  {| verb := v; url := endpoint self path; headers := []; json_arg := None |}.

(** The handlers shared by every method of this module.  The module never
    imports the [ConnectionError] of [requests], so its
    [except ConnectionError] names the builtin class, from which the
    exception of [requests] does not derive: that exception reaches
    [except Exception as e: raise e], as the [HTTPError] of
    [raise_for_status] does. *)
Definition checked (t : Attempt) : M Response :=
  match t with
  | NoReply => raise RequestsConnectionError
  | Rejected r e => raise e
  | Passed r => ret r
  end.

Definition get_config (self : SchemaRegistryManager) : M pyval :=
  t <~ attempt server (request self GET "/config") ;;
  r <~ checked t ;;
  lift (json r).

Definition __init__ (manager_hostname manager_port : string) : M SchemaRegistryManager :=
  let self := {| _manager := manager_hostname;
                 _manager_port := manager_port;
                 _manager_ip := manager_hostname ++ ":" ++ manager_port |} in
  _ <~ get_config self ;;
  ret self.

Definition get_subjects (self : SchemaRegistryManager) : M pyval :=
  t <~ attempt server (request self GET "/subjects") ;;
  r <~ checked t ;;
  lift (json r).

Definition get_subject_versions (self : SchemaRegistryManager) (subject : string)
    : M pyval :=
  if (String.length subject =? 0)%nat then raise ValueError else
  t <~ attempt server (request self GET ("/subjects/" ++ subject ++ "/versions")) ;;
  r <~ checked t ;;
  lift (json r).

(** [if version is None: version = max(self.get_subject_versions(subject))]. *)
Definition resolve_version (self : SchemaRegistryManager) (subject : string)
    (version : option pyval) : M pyval :=
  match version with
  | None => versions <~ get_subject_versions self subject ;; lift (py_max versions)
  | Some v => ret v
  end.

Definition get_subject_schema (self : SchemaRegistryManager) (subject : string)
    (version : option pyval) : M pyval :=
  if (String.length subject =? 0)%nat then raise ValueError else
  version <~ resolve_version self subject version ;;
  version <~ lift (py_format version) ;;
  t <~ attempt server
         (request self GET ("/subjects/" ++ subject ++ "/versions/" ++ version ++ "/schema")) ;;
  r <~ checked t ;;
  lift (json r).

Definition get_subject_schema_id (self : SchemaRegistryManager) (subject : string)
    (version : option pyval) : M pyval :=
  if (String.length subject =? 0)%nat then raise ValueError else
  version <~ resolve_version self subject version ;;
  version <~ lift (py_format version) ;;
  t <~ attempt server
         (request self GET ("/subjects/" ++ subject ++ "/versions/" ++ version)) ;;
  r <~ checked t ;;
  lift (j <- json r ;; get_item j "id").

(** [json.loads(s)] applied to a value: only a string can be decoded. *)
Definition loads (v : pyval) : outcome pyval :=
  match v with
  | PStr s => match json_loads s with
              | Some x => Ret x
              | None => Exc JSONDecodeError
              end
  | _ => Exc TypeError
  end.

Definition get_schema (self : SchemaRegistryManager) (schema_id : pyval) : M pyval :=
  if negb (isinstance_int schema_id) then raise ValueError else
  id <~ lift (py_format schema_id) ;;
  t <~ attempt server (request self GET ("/schemas/ids/" ++ id)) ;;
  r <~ checked t ;;
  lift (j <- json r ;; schema <- get_item j "schema" ;; loads schema).

(** The local validation of [register_schema], lines 256 to 266: the
    [try] block, then [except (SchemaParseException, KeyError)]. *)
Definition validated (avro_schema : pyval) : outcome pyval :=
  let tried :=
    match avro_schema with
    | PStr s =>
        match avro_parse s with
        | Some e => Exc e
        | None => loads avro_schema
        end
    | PDict _ =>
        match avro_parse (json_dumps avro_schema) with
        | Some e => Exc e
        | None => Ret avro_schema
        end
    | _ => Exc TypeError
    end in
  match tried with
  | Exc SchemaParseException | Exc KeyError => Exc SchemaParseException
  | other => other
  end.

Definition register_schema (self : SchemaRegistryManager) (subject : string)
    (avro_schema : pyval) : M pyval :=
  if (String.length subject =? 0)%nat then raise ValueError else
  n <~ lift (py_len avro_schema) ;;
  if (n =? 0)%Z then raise ValueError else
  avro_schema <~ lift (validated avro_schema) ;;
  let headers := [("Content-Type", "application/vnd.schemaregistry.v1+json")] in
  let data := json_dumps (PDict [("schema", PStr (json_dumps avro_schema))]) in
  t <~ attempt server
         {| verb := POST;
            url := endpoint self ("/subjects/" ++ subject ++ "/versions");
            headers := headers;
            json_arg := Some (PStr data) |} ;;
  r <~ checked t ;;
  lift (j <- json r ;; get_item j "id").

Definition delete_subject (self : SchemaRegistryManager) (subject : string) : M pyval :=
  if (String.length subject =? 0)%nat then raise ValueError else
  t <~ attempt server (request self DELETE ("/subjects/" ++ subject)) ;;
  r <~ checked t ;;
  lift (json r).

Definition delete_subject_version (self : SchemaRegistryManager) (subject : string)
    (version : option pyval) : M pyval :=
  if (String.length subject =? 0)%nat then raise ValueError else
  version <~ resolve_version self subject version ;;
  version <~ lift (py_format version) ;;
  t <~ attempt server
         (request self DELETE ("/subjects/" ++ subject ++ "/versions/" ++ version)) ;;
  r <~ checked t ;;
  lift (json r).

End Methods.

End SchemaRegistryManager.

(** ** The vocabulary of the specification *)

Module Spec.
Import Py Http ConnectManager.
Local Open Scope py_scope.

(** The error taxonomy of the specification. *)
Inductive SpecError : Type :=
| InvalidArgument
| ServerUnavailable
| ResourceNotFound
| ConflictRetryable
| SchemaValidationFailed
| HttpError.

(** The taxonomy class of each exception the managers raise; an exception
    of no class is an unclassified failure. *)
Definition taxonomy (e : exn) : option SpecError :=
  match e with
  | ValueError | TypeError => Some InvalidArgument
  | NoConnectServerAvailable | NoSchemaRegistryAvailable => Some ServerUnavailable
  | NoConnectorAvailable => Some ResourceNotFound
  | SchemaParseException => Some SchemaValidationFailed
  | HTTPError => Some HttpError
  | KeyError | IndexError | AttributeError | JSONDecodeError
  | RequestsConnectionError => None
  end.

(** The known-class table: the label of each class name that lines 180 to
    226 compare with. *)
Definition known_technology (class : string) : option string :=
  if String.eqb class JdbcSourceConnector then Some "JDBC"
  else if String.eqb class "io.confluent.connect.activemq.ActiveMQSourceConnectorConfig"
  then Some "ActiveMQ"
  else if String.eqb class "io.confluent.connect.s3.S3SinkConnector" then Some "S3"
  else if String.eqb class "io.confluent.connect.elasticsearch.ElasticsearchSinkConnector"
  then Some "Elasticsearch"
  else if String.eqb class "io.confluent.connect.hdfs.HdfsSinkConnector" then Some "HDFS"
  else if String.eqb class "io.confluent.connect.ibm.mq.IbmMQSourceConnectorConfig"
  then Some "IBM MQ"
  else if String.eqb class "io.confluent.connect.jdbc.JdbcSinkConnector" then Some "JDBC"
  else if String.eqb class "io.confluent.connect.jms.JmsSourceConnector" then Some "JMS"
  else None.

(** A connector configuration as the data model has it, a mapping from
    string to string, as the decoded JSON object. *)
Definition str_dict (c : list (string * string)) : dict :=
  map (fun kv => (fst kv, PStr (snd kv))) c.



(** The run of [get_connector_info] from history [w] gets an answer that is
    no error to its first configuration request, with the JSON object [d],
    and one to its status request, from which it reads [state]. *)
Definition fetched (server : Server) (self : KafkaConnectManager) (id : string)
    (w : World) (d : dict) (state : pyval) : Prop :=
  id <> "" /\
  exists r1 r2 status,
    server (requests_sent w) (request self GET ("/connectors/" ++ id) None) = Replied r1 /\
    raise_for_status r1 = None /\
    body r1 = Some (PDict d) /\
    server (S (requests_sent w))
           (request self GET ("/connectors/" ++ id ++ "/status") None) = Replied r2 /\
    raise_for_status r2 = None /\
    body r2 = Some status /\
    (connector <- get_item status "connector" ;; get_item connector "state") = Ret state.

(** The "type" that lines 172 to 177 give a class name. *)
Definition type_of (class : string) : string :=
  if contains "Source" class then "source"
  else if contains "Sink" class then "sink"
  else "undetermined".

(** The "vendor" that lines 170 and 178 give a class name. *)
Definition vendor_of (class : string) : string :=
  if contains "confluent" class then "Confluent" else "Unknown".

(** The entries that lines 180 to 229 assign. *)
Definition technology_keys : list string :=
  ["class"; "jdbc_type"; "jdbc_location"; "jdbc_database"; "jdbc_sid";
   "tables"; "topics"; "subjects"].

(** The entries that [get_connector_info] assigns. *)
Definition assigned_keys : list string :=
  "vendor" :: "state" :: "type" :: technology_keys.

(** Key [k] is one of [keys]. *)
Definition among (keys : list string) (k : string) : bool :=
  existsb (fun key => String.eqb key k) keys.

(** Character [c] occurs in [s]. *)
Definition has_char (c : ascii) (s : string) : bool :=
  existsb (Ascii.eqb c) (list_ascii_of_string s).

(** The "subjects" that line 212 derives from a list of topic names. *)
Definition subjects_of (topics : list string) : list pyval :=
  concat (map (fun s => [PStr (s ++ "-key"); PStr (s ++ "-value")]) topics).

(** The dialect that lines 182 to 198 choose: the first of the five names
    that occurs anywhere in the URL. *)
Definition dialect_of (url : string) : option string :=
  if contains "mysql" url then Some "mysql"
  else if contains "oracle" url then Some "oracle"
  else if contains "postgresql" url then Some "postgresql"
  else if contains "sqlserver" url then Some "sqlserver"
  else if contains "mariadb" url then Some "mariadb"
  else None.

(** The history left by [k] attempts of request [rq] that were each
    answered 409: the request, then the wait of one second. *)
Fixpoint stale (rq : Request) (k : nat) : World :=
  match k with
  | O => []
  | S k' => Sent rq :: Slept 1 :: stale rq k'
  end.

End Spec.

(** ** Concrete deployments *)

Module Samples.
Import Py Http.

(** A remote end that gives the listed answers in order and cannot be
    reached afterwards. *)
Definition scripted (answers : list Answer) : Server :=
  fun n _ => nth n answers Unreachable.

Definition ok (v : pyval) : Answer :=
  Replied {| status_code := 200; body := Some v |}.

Definition status (code : Z) : Answer :=
  Replied {| status_code := code; body := None |}.

Definition connect : ConnectManager.KafkaConnectManager :=
  {| ConnectManager._manager := "connect";
     ConnectManager._manager_port := "8083";
     ConnectManager._manager_ip := "connect:8083";
     ConnectManager._headers := [("accept", "application/json")] |}.

Definition registry : SchemaRegistryManager.SchemaRegistryManager :=
  {| SchemaRegistryManager._manager := "registry";
     SchemaRegistryManager._manager_port := "8081";
     SchemaRegistryManager._manager_ip := "registry:8081" |}.

(** The body of [GET /connectors/<name>]. *)
Definition connector (name : string) (config : list (string * string)) : pyval :=
  PDict [("name", PStr name);
         ("config", PDict (Spec.str_dict config));
         ("tasks", PList []);
         ("type", PStr "source")].

(** The body of [GET /connectors/<name>/status]. *)
Definition running (name : string) : pyval :=
  PDict [("name", PStr name);
         ("connector", PDict [("state", PStr "RUNNING"); ("worker_id", PStr "connect:8083")]);
         ("tasks", PList [])].

Definition mysql_whitelist : list (string * string) :=
  [("connector.class", "io.confluent.connect.jdbc.JdbcSourceConnector");
   ("connection.url", "jdbc:mysql://host1:3306/mydb");
   ("mode", "incrementing");
   ("table.whitelist", "t1,t2");
   ("topic.prefix", "pfx-")].

Definition mysql_query : list (string * string) :=
  [("connector.class", "io.confluent.connect.jdbc.JdbcSourceConnector");
   ("connection.url", "jdbc:mysql://host1:3306/mydb");
   ("query", "SELECT * FROM t1");
   ("topic.prefix", "pfx-")].

Definition activemq : list (string * string) :=
  [("connector.class", "io.confluent.connect.activemq.ActiveMQSourceConnectorConfig");
   ("kafka.topic", "queue-events")].

Definition s3_sink : list (string * string) :=
  [("connector.class", "io.confluent.connect.s3.S3SinkConnector");
   ("topics", "orders")].

Definition db2_whitelist : list (string * string) :=
  [("connector.class", "io.confluent.connect.jdbc.JdbcSourceConnector");
   ("connection.url", "jdbc:db2://host1:50000/sample");
   ("table.whitelist", "t1");
   ("topic.prefix", "pfx-")].

(** The value a run returned, [None] if it returned none. *)
Definition returned (o : outcome pyval) : pyval :=
  match o with
  | Ret v => v
  | _ => PNone
  end.

(** The list a run returned, empty if it returned none. *)
Definition returned_list (o : outcome pyval) : list pyval :=
  match o with
  | Ret (PList l) => l
  | _ => []
  end.

Definition two_connectors : Server :=
  scripted [ok (PList [PStr "s"; PStr "x"]);
            ok (connector "s" s3_sink);
            ok (running "s");
            ok (connector "x" mysql_whitelist);
            ok (running "x")].

Definition mysql_no_database : list (string * string) :=
  [("connector.class", "io.confluent.connect.jdbc.JdbcSourceConnector");
   ("connection.url", "jdbc:mysql://host1:3306");
   ("table.whitelist", "t1");
   ("topic.prefix", "pfx-")].



(** The JSON text of the object with the one entry "tasks.max": "1". *)
Definition quote : string := String (ascii_of_nat 34) "".

Definition tasks_max_json : string :=
  "{" ++ quote ++ "tasks.max" ++ quote ++ ": " ++ quote ++ "1" ++ quote ++ "}".

(** The JSON text of the Avro schema {"type": "string"} and a
    [json.loads] that knows it. *)
Definition string_schema_json : string :=
  "{" ++ quote ++ "type" ++ quote ++ ": " ++ quote ++ "string" ++ quote ++ "}".

Definition loads_string_schema : string -> option pyval :=
  fun s => if String.eqb s string_schema_json
           then Some (PDict [("type", PStr "string")]) else None.

(** A [json.loads] that knows this one document. *)
Definition loads_tasks_max : string -> option pyval :=
  fun s => if String.eqb s tasks_max_json
           then Some (PDict [("tasks.max", PStr "1")]) else None.

(** [json.loads], [json.dumps] and [avro.schema.Parse] stand-ins for the
    runs below, none of which reaches them. *)
Definition no_loads : string -> option pyval := fun _ => None.
Definition no_dumps : pyval -> string := fun _ => "".
Definition no_parse : string -> option exn := fun _ => None.

End Samples.

(** * Properties *)

Module PyFacts.
Import Py.
Local Open Scope py_scope.

Lemma dict_get_set_eq (d : dict) (k : string) (v : pyval) :
  dict_get (dict_set d k v) k = Some v.
Proof.
  induction d as [|[k' v'] d IH]; simpl.
  - now rewrite String.eqb_refl.
  - destruct (String.eqb k' k) eqn:E; simpl.
    + now rewrite String.eqb_refl.
    + now rewrite E.
Qed.

Lemma dict_get_set_ne (d : dict) (k k' : string) (v : pyval) :
  String.eqb k k' = false ->
  dict_get (dict_set d k v) k' = dict_get d k'.
Proof.
  intros Hne.
  induction d as [|[k0 v0] d IH]; simpl.
  - now rewrite Hne.
  - destruct (String.eqb k0 k) eqn:E; simpl.
    + apply String.eqb_eq in E. subst k0. now rewrite Hne.
    + destruct (String.eqb k0 k'); [reflexivity | exact IH].
Qed.

Lemma dict_has_set_ne (d : dict) (k k' : string) (v : pyval) :
  String.eqb k k' = false ->
  dict_has (dict_set d k v) k' = dict_has d k'.
Proof. intros H. unfold dict_has. now rewrite dict_get_set_ne. Qed.

Lemma py_index_cases {A} (l : list A) (i : Z) :
  (exists x, py_index l i = Ret x) \/ py_index l i = Exc IndexError.
Proof.
  unfold py_index.
  destruct ((if (i <? 0)%Z then (i + Z.of_nat (length l))%Z else i) <? 0)%Z;
    [now right|].
  destruct (nth_error l _); [left; eauto | now right].
Qed.

Lemma split_nonempty (sep : ascii) (s : string) : split sep s <> [].
Proof.
  destruct s as [|c s]; cbn [split]; [discriminate|].
  destruct (Ascii.eqb c sep); [discriminate|].
  destruct (split sep s); discriminate.
Qed.

End PyFacts.

(** Rewrites a lookup through the assignments made before it. *)
Ltac dict_lookup :=
  repeat first
    [ rewrite PyFacts.dict_get_set_eq
    | rewrite PyFacts.dict_get_set_ne by reflexivity
    | rewrite PyFacts.dict_has_set_ne by reflexivity ].

Module HttpFacts.
Import Py Http.

Lemma requests_sent_app (w1 w2 : World) :
  requests_sent (w1 ++ w2) = (requests_sent w1 + requests_sent w2)%nat.
Proof. unfold requests_sent. now rewrite filter_app, length_app. Qed.

Lemma requests_sent_Sent (w : World) (rq : Request) :
  requests_sent (w ++ [Sent rq]) = S (requests_sent w).
Proof. rewrite requests_sent_app. change (requests_sent [Sent rq]) with 1%nat. lia. Qed.

Lemma requests_sent_Slept (w : World) (n : Z) :
  requests_sent (w ++ [Slept n]) = requests_sent w.
Proof. rewrite requests_sent_app. change (requests_sent [Slept n]) with 0%nat. lia. Qed.

(** An answer whose status is no error status passes the [try] block. *)
Lemma attempt_passed (server : Server) (rq : Request) (w : World) (r : Response) :
  server (requests_sent w) rq = Replied r ->
  raise_for_status r = None ->
  attempt server rq w = (Ret (Passed r), w ++ [Sent rq]).
Proof. intros Hs Hr. unfold attempt. now rewrite Hs, Hr. Qed.

Lemma attempt_rejected (server : Server) (rq : Request) (w : World) (r : Response) (e : exn) :
  server (requests_sent w) rq = Replied r ->
  raise_for_status r = Some e ->
  attempt server rq w = (Ret (Rejected r e), w ++ [Sent rq]).
Proof. intros Hs Hr. unfold attempt. now rewrite Hs, Hr. Qed.

Lemma raise_for_status_error (r : Response) :
  (400 <= status_code r < 600)%Z -> raise_for_status r = Some HTTPError.
Proof.
  intros H. unfold raise_for_status.
  replace (400 <=? status_code r)%Z with true by (symmetry; apply Z.leb_le; lia).
  replace (status_code r <? 600)%Z with true by (symmetry; apply Z.ltb_lt; lia).
  reflexivity.
Qed.

Lemma raise_for_status_only_HTTPError (r : Response) (e : exn) :
  raise_for_status r = Some e -> e = HTTPError.
Proof.
  unfold raise_for_status.
  destruct ((400 <=? status_code r) && (status_code r <? 600))%Z; congruence.
Qed.

End HttpFacts.

Module ConnectFacts.
Import Py Http ConnectManager PyFacts HttpFacts.
Local Open Scope py_scope.
Local Open Scope http_scope.

(** Once the configuration and the status have been fetched,
    [get_connector_info] is the enrichment of the fetched payload. *)
Lemma get_connector_info_enriches
    (server : Server) (fuel : nat) (self : KafkaConnectManager) (id : string)
    (w : World) (d : dict) (state : pyval) :
  Spec.fetched server self id w d state ->
  get_connector_info server (S fuel) self id w =
    (enrich (PDict (dict_set (dict_set d "vendor" (PStr "Unknown")) "state" state)),
     w ++ [Sent (request self GET ("/connectors/" ++ id) None);
           Sent (request self GET ("/connectors/" ++ id ++ "/status") None)]).
Proof.
  intros (Hid & r1 & r2 & status & H1 & Hok1 & Hb1 & H2 & Hok2 & Hb2 & Hst).
  unfold get_connector_info, get_connector_status.
  destruct id as [|c id']; [congruence|]. cbn [String.length Nat.eqb].
  unfold bind at 1. cbn [fetch_connector]. unfold bind at 1.
  rewrite (attempt_passed _ _ _ _ H1 Hok1). cbn [ret].
  unfold bind at 1, lift at 1, json. rewrite Hb1.
  unfold bind at 1, lift at 1. cbn [set_item].
  unfold bind at 1, bind at 1.
  rewrite <- requests_sent_Sent
    with (rq := request self GET ("/connectors/" ++ String c id') None) in H2.
  rewrite (attempt_passed _ _ _ _ H2 Hok2).
  unfold lift at 1, json. rewrite Hb2. cbn [obind].
  change (obind (get_item status "connector") (fun connector => get_item connector "state"))
    with (connector <- get_item status "connector" ;; get_item connector "state").
  rewrite Hst.
  unfold bind, lift. cbn [set_item].
  now rewrite <- app_assoc.
Qed.

(** The type and vendor step only writes the "type" and "vendor" entries. *)
Lemma type_and_vendor_frame (d cfg : dict) (class : string) :
  dict_get d "config" = Some (PDict cfg) ->
  dict_get cfg "connector.class" = Some (PStr class) ->
  exists d',
    type_and_vendor (PDict d) = Ret (PDict d') /\
    forall k, String.eqb "type" k = false -> String.eqb "vendor" k = false ->
              dict_get d' k = dict_get d k.
Proof.
  intros Hc Hk. unfold type_and_vendor, config_item. cbn [get_item obind].
  rewrite Hc. cbn [get_item obind]. rewrite Hk. cbn [obind py_in].
  destruct (contains "Source" class); [|destruct (contains "Sink" class)];
    cbn [obind set_item]; destruct (contains "confluent" class); cbn [set_item];
    eexists; (split; [reflexivity|]); intros k H1 H2;
    now rewrite ?dict_get_set_ne by assumption.
Qed.


(** The payload that the enrichment starts from keeps the fetched entries
    other than "vendor" and "state". *)
Lemma enrich_input_frame (d : dict) (state : pyval) (k : string) :
  String.eqb "vendor" k = false -> String.eqb "state" k = false ->
  dict_get (dict_set (dict_set d "vendor" (PStr "Unknown")) "state" state) k = dict_get d k.
Proof. intros H1 H2. now rewrite !dict_get_set_ne by assumption. Qed.

(** Runs the enrichment on a payload whose configuration entries are given
    by equations in the context. *)
Ltac run_enrich :=
  repeat (cbv -[dict_set dict_get];
          repeat first
            [ rewrite dict_get_set_eq
            | rewrite dict_get_set_ne by reflexivity
            | match goal with
              | H : dict_get _ _ = _ |- _ => rewrite H
              end ]).

(** C1: for a connector of class io.confluent.connect.jdbc.JdbcSourceConnector
    with connection.url "jdbc:mysql://host1:3306/mydb", table.whitelist "t1,t2"
    and topic.prefix "pfx-", [get_connector_info] returns a dictionary with
    jdbc_type "mysql", jdbc_location "host1:3306", jdbc_database "mydb",
    tables ["t1","t2"], topics ["pfx-t1","pfx-t2"] and subjects
    ["pfx-t1-key","pfx-t1-value","pfx-t2-key","pfx-t2-value"]. *)
Theorem C1_inspect_mysql_whitelist
    (server : Server) (fuel : nat) (self : KafkaConnectManager) (id : string)
    (w : World) (d cfg : dict) (state : pyval) :
  Spec.fetched server self id w d state ->
  dict_get d "config" = Some (PDict cfg) ->
  dict_get cfg "connector.class"
    = Some (PStr "io.confluent.connect.jdbc.JdbcSourceConnector") ->
  dict_get cfg "connection.url" = Some (PStr "jdbc:mysql://host1:3306/mydb") ->
  dict_get cfg "table.whitelist" = Some (PStr "t1,t2") ->
  dict_get cfg "topic.prefix" = Some (PStr "pfx-") ->
  exists info,
    fst (get_connector_info server (S fuel) self id w) = Ret (PDict info) /\
    dict_get info "jdbc_type" = Some (PStr "mysql") /\
    dict_get info "jdbc_location" = Some (PStr "host1:3306") /\
    dict_get info "jdbc_database" = Some (PStr "mydb") /\
    dict_get info "tables" = Some (PList [PStr "t1"; PStr "t2"]) /\
    dict_get info "topics" = Some (PList [PStr "pfx-t1"; PStr "pfx-t2"]) /\
    dict_get info "subjects"
      = Some (PList [PStr "pfx-t1-key"; PStr "pfx-t1-value";
                     PStr "pfx-t2-key"; PStr "pfx-t2-value"]).
Proof.
  intros Hf Hc Hcls Hurl Hwl Hpfx.
  rewrite (get_connector_info_enriches _ _ _ _ _ _ _ Hf). cbn [fst].
  set (d0 := dict_set (dict_set d "vendor" (PStr "Unknown")) "state" state).
  assert (Hc0 : dict_get d0 "config" = Some (PDict cfg))
    by (unfold d0; rewrite enrich_input_frame by reflexivity; exact Hc).
  destruct (type_and_vendor_frame d0 cfg _ Hc0 Hcls) as (d1 & Htv & Hframe).
  unfold enrich. rewrite Htv. cbn [obind].
  assert (Hc1 : dict_get d1 "config" = Some (PDict cfg))
    by (rewrite Hframe by reflexivity; exact Hc0).
  clearbody d0. clear Hframe Htv Hc0 Hc Hf.
  run_enrich.
  eexists. split; [reflexivity|].
  repeat split; now dict_lookup.
Qed.

Lemma C1_inspect_mysql_whitelist_witness :
  exists info,
    fst (get_connector_info
           (Samples.scripted [Samples.ok (Samples.connector "x" Samples.mysql_whitelist);
                              Samples.ok (Samples.running "x")])
           1 Samples.connect "x" []) = Ret (PDict info) /\
    dict_get info "jdbc_type" = Some (PStr "mysql") /\
    dict_get info "jdbc_location" = Some (PStr "host1:3306") /\
    dict_get info "jdbc_database" = Some (PStr "mydb") /\
    dict_get info "tables" = Some (PList [PStr "t1"; PStr "t2"]) /\
    dict_get info "topics" = Some (PList [PStr "pfx-t1"; PStr "pfx-t2"]) /\
    dict_get info "subjects"
      = Some (PList [PStr "pfx-t1-key"; PStr "pfx-t1-value";
                     PStr "pfx-t2-key"; PStr "pfx-t2-value"]).
Proof.
  apply (C1_inspect_mysql_whitelist _ 0 Samples.connect "x" []
           [("name", PStr "x");
            ("config", PDict (Spec.str_dict Samples.mysql_whitelist));
            ("tasks", PList []);
            ("type", PStr "source")]
           (Spec.str_dict Samples.mysql_whitelist) (PStr "RUNNING")).
  - split; [discriminate|].
    exists {| status_code := 200; body := Some (Samples.connector "x" Samples.mysql_whitelist) |},
           {| status_code := 200; body := Some (Samples.running "x") |},
           (Samples.running "x").
    repeat split; reflexivity.
  - reflexivity.
  - reflexivity.
  - reflexivity.
  - reflexivity.
  - reflexivity.
Defined.

(** *** Query mode *)

Lemma omap_key_and_value_strs (l : list string) :
  omap key_and_value (map PStr l)
  = Ret (map (fun s => [PStr (s ++ "-key"); PStr (s ++ "-value")]) l).
Proof.
  induction l as [|s l IH]; [reflexivity|].
  cbn [map omap]. rewrite IH. reflexivity.
Qed.

(** Without a whitelist, "topics" is the prefix itself, a string, and line
    212 iterates over its characters. *)
Lemma tables_topics_subjects_query (d cfg : dict) (prefix : string) :
  dict_get d "config" = Some (PDict cfg) ->
  dict_get cfg "table.whitelist" = None ->
  dict_get cfg "topic.prefix" = Some (PStr prefix) ->
  tables_topics_subjects (PDict d)
  = Ret (PDict (dict_set
                  (dict_set (dict_set d "topics" (PStr prefix)) "tables" (PList []))
                  "subjects"
                  (PList (concat (map (fun s => [PStr (s ++ "-key"); PStr (s ++ "-value")])
                                      (chars prefix)))))).
Proof.
  intros Hc Hwl Hpfx.
  unfold tables_topics_subjects, config_item. cbn [get_item obind].
  rewrite Hc. cbn [obind py_in]. unfold dict_has. rewrite Hwl. cbn [obind get_item].
  rewrite Hpfx. cbn [obind set_item get_item].
  dict_lookup. cbn [obind py_iter].
  rewrite omap_key_and_value_strs. reflexivity.
Qed.

(** C2, at a query-mode connector with topic.prefix "pfx-": "tables" is
    empty, but "topics" is the string "pfx-", not a list holding it, and
    "subjects" has a key and a value entry for each character of it. *)
Theorem C2_query_mode_topics_is_the_raw_string :
  exists info,
    fst (get_connector_info
           (Samples.scripted [Samples.ok (Samples.connector "q" Samples.mysql_query);
                              Samples.ok (Samples.running "q")])
           1 Samples.connect "q" []) = Ret (PDict info) /\
    dict_get info "tables" = Some (PList []) /\
    dict_get info "topics" = Some (PStr "pfx-") /\
    dict_get info "topics" <> Some (PList [PStr "pfx-"]) /\
    dict_get info "subjects"
      = Some (PList [PStr "p-key"; PStr "p-value"; PStr "f-key"; PStr "f-value";
                     PStr "x-key"; PStr "x-value"; PStr "--key"; PStr "--value"]) /\
    dict_get info "subjects" <> Some (PList [PStr "pfx--key"; PStr "pfx--value"]).
Proof.
  eexists. split; [vm_compute; reflexivity|].
  repeat split; try reflexivity; vm_compute; discriminate.
Qed.

(** *** Classes other than the JDBC source *)

Lemma technology_other_class (d cfg : dict) (class : string) :
  dict_get d "config" = Some (PDict cfg) ->
  dict_get cfg "connector.class" = Some (PStr class) ->
  class <> JdbcSourceConnector ->
  technology (PDict d)
  = Ret (PDict match Spec.known_technology class with
               | Some label => dict_set d "class" (PStr label)
               | None => dict_set d "topics" (PList [])
               end).
Proof.
  intros Hc Hcls Hne.
  unfold technology, config_item. cbn [get_item obind]. rewrite Hc.
  cbn [get_item obind]. rewrite Hcls. cbn [obind eq_str].
  unfold Spec.known_technology.
  apply String.eqb_neq in Hne. rewrite Hne.
  repeat match goal with
         | |- context [String.eqb class ?lit] => destruct (String.eqb class lit)
         end; reflexivity.
Qed.




(** *** The configuration fetch and its retry *)

Section Fetch.
Variable server : Server.
Variable self : KafkaConnectManager.
Variable id : string.

Local Abbreviation rq := (request self GET ("/connectors/" ++ id) None).

Lemma fetch_connector_passed (fuel : nat) (w : World) (r : Response) :
  server (requests_sent w) rq = Replied r ->
  raise_for_status r = None ->
  fetch_connector server (S fuel) self id w = (Ret r, w ++ [Sent rq]).
Proof.
  intros Hs Hr. cbn [fetch_connector]. unfold bind.
  now rewrite (attempt_passed _ _ _ _ Hs Hr).
Qed.

Lemma fetch_connector_404 (fuel : nat) (w : World) (r : Response) :
  server (requests_sent w) rq = Replied r ->
  status_code r = 404%Z ->
  fetch_connector server (S fuel) self id w = (Exc NoConnectorAvailable, w ++ [Sent rq]).
Proof.
  intros Hs Hc. cbn [fetch_connector]. unfold bind.
  rewrite (attempt_rejected _ _ _ _ HTTPError Hs)
    by (apply raise_for_status_error; lia).
  cbn [is_HTTPError]. now rewrite Hc.
Qed.

(** A 409 costs one second and one more turn of the loop. *)
Lemma fetch_connector_409 (fuel : nat) (w : World) (r : Response) :
  server (requests_sent w) rq = Replied r ->
  status_code r = 409%Z ->
  fetch_connector server (S fuel) self id w
  = fetch_connector server fuel self id (w ++ [Sent rq; Slept 1]).
Proof.
  intros Hs Hc. cbn [fetch_connector]. unfold bind at 1.
  rewrite (attempt_rejected _ _ _ _ HTTPError Hs)
    by (apply raise_for_status_error; lia).
  cbn [is_HTTPError]. rewrite Hc. cbn [Z.eqb Pos.eqb].
  unfold bind, sleep. now rewrite <- app_assoc.
Qed.

Lemma fetch_connector_other_error (fuel : nat) (w : World) (r : Response) :
  server (requests_sent w) rq = Replied r ->
  (400 <= status_code r < 600)%Z ->
  status_code r <> 404%Z ->
  status_code r <> 409%Z ->
  fetch_connector server (S fuel) self id w = (Exc HTTPError, w ++ [Sent rq]).
Proof.
  intros Hs Hrange H404 H409. cbn [fetch_connector]. unfold bind.
  rewrite (attempt_rejected _ _ _ _ HTTPError Hs)
    by (now apply raise_for_status_error).
  cbn [is_HTTPError].
  apply Z.eqb_neq in H404, H409. now rewrite H404, H409.
Qed.

(** However many 409 answers come first, each is absorbed by the loop: the
    run goes on from the history that records the attempts and the waits. *)
Lemma fetch_connector_retries (k fuel : nat) (w : World) :
  (forall i, (i < k)%nat ->
     exists r, server (requests_sent w + i) rq = Replied r /\ status_code r = 409%Z) ->
  fetch_connector server (k + fuel) self id w
  = fetch_connector server fuel self id (w ++ Spec.stale rq k).
Proof.
  revert w. induction k as [|k IH]; intros w H.
  - cbn [Spec.stale Nat.add]. now rewrite app_nil_r.
  - destruct (H 0%nat) as (r & Hs & Hc); [lia|].
    rewrite Nat.add_0_r in Hs.
    cbn [Nat.add]. rewrite (fetch_connector_409 _ _ _ Hs Hc).
    rewrite IH.
    + cbn [Spec.stale]. now rewrite <- app_assoc.
    + intros i Hi. destruct (H (S i)) as (r' & Hs' & Hc'); [lia|].
      exists r'. split; [|exact Hc'].
      rewrite requests_sent_app. change (requests_sent [Sent rq; Slept 1]) with 1%nat.
      now replace (requests_sent w + 1 + i)%nat with (requests_sent w + S i)%nat by lia.
Qed.

(** What the loop hands on is never a rejected answer. *)
Lemma fetch_connector_returns_passed (fuel : nat) (w w' : World) (r : Response) :
  fetch_connector server fuel self id w = (Ret r, w') ->
  raise_for_status r = None.
Proof.
  revert w. induction fuel as [|fuel IH]; intros w; cbn [fetch_connector].
  - discriminate.
  - unfold bind at 1, attempt.
    destruct (server (requests_sent w) rq) as [|r0].
    + discriminate.
    + destruct (raise_for_status r0) as [e|] eqn:Hr.
      * destruct (is_HTTPError e); [|discriminate].
        destruct (status_code r0 =? 404)%Z; [discriminate|].
        destruct (status_code r0 =? 409)%Z; [|discriminate].
        unfold bind, sleep. apply IH.
      * unfold ret. intros [= <- _]. exact Hr.
Qed.

End Fetch.

Lemma get_connector_info_fetches
    (server : Server) (fuel : nat) (self : KafkaConnectManager) (id : string) (w : World) :
  id <> "" ->
  get_connector_info server fuel self id w =
    match fetch_connector server fuel self id w with
    | (Ret r, w1) =>
        (connector_info <~ lift (json r) ;;
         connector_info <~ lift (set_item connector_info "vendor" (PStr "Unknown")) ;;
         state <~ get_connector_status server self id ;;
         connector_info <~ lift (set_item connector_info "state" state) ;;
         lift (enrich connector_info)) w1
    | (Exc e, w1) => (Exc e, w1)
    | (Stop l, w1) => (Stop l, w1)
    end.
Proof.
  intros Hid. unfold get_connector_info.
  destruct id as [|c id']; [congruence|]. reflexivity.
Qed.

Lemma get_connector_info_409
    (server : Server) (fuel : nat) (self : KafkaConnectManager) (id : string)
    (w : World) (r : Response) :
  id <> "" ->
  server (requests_sent w) (request self GET ("/connectors/" ++ id) None) = Replied r ->
  status_code r = 409%Z ->
  get_connector_info server (S fuel) self id w
  = get_connector_info server fuel self id
      (w ++ [Sent (request self GET ("/connectors/" ++ id) None); Slept 1]).
Proof.
  intros Hid Hs Hc.
  rewrite !get_connector_info_fetches by assumption.
  now rewrite (fetch_connector_409 _ _ _ _ _ _ Hs Hc).
Qed.

(** C4, amended: a 409 answer to the configuration fetch is not raised;
    after a 409 followed by an answer that is no error,
    [get_connector_info] has sent the same request twice with a sleep of
    one second in between and goes on to the status fetch and the
    enrichment of the second answer; a 404 raises NoConnectorAvailable; any
    other status from 400 to 599 raises HTTPError after that one request. *)
Theorem C4_stale_configuration_retry
    (server : Server) (fuel : nat) (self : KafkaConnectManager) (id : string)
    (w : World) (r : Response) :
  id <> "" ->
  server (requests_sent w) (request self GET ("/connectors/" ++ id) None) = Replied r ->
  (status_code r = 409%Z ->
   forall d state,
     Spec.fetched server self id
       (w ++ [Sent (request self GET ("/connectors/" ++ id) None); Slept 1]) d state ->
     get_connector_info server (S (S fuel)) self id w
     = (enrich (PDict (dict_set (dict_set d "vendor" (PStr "Unknown")) "state" state)),
        w ++ [Sent (request self GET ("/connectors/" ++ id) None);
              Slept 1;
              Sent (request self GET ("/connectors/" ++ id) None);
              Sent (request self GET ("/connectors/" ++ id ++ "/status") None)])) /\
  (status_code r = 404%Z ->
   get_connector_info server (S fuel) self id w
   = (Exc NoConnectorAvailable,
      w ++ [Sent (request self GET ("/connectors/" ++ id) None)])) /\
  ((400 <= status_code r < 600)%Z ->
   status_code r <> 404%Z ->
   status_code r <> 409%Z ->
   get_connector_info server (S fuel) self id w
   = (Exc HTTPError, w ++ [Sent (request self GET ("/connectors/" ++ id) None)])).
Proof.
  intros Hid Hs. repeat split.
  - intros Hc d state Hf.
    rewrite (get_connector_info_409 _ _ _ _ _ _ Hid Hs Hc).
    rewrite (get_connector_info_enriches _ _ _ _ _ _ _ Hf).
    now rewrite <- app_assoc.
  - intros Hc. rewrite get_connector_info_fetches by assumption.
    now rewrite (fetch_connector_404 _ _ _ _ _ _ Hs Hc).
  - intros Hrange H404 H409. rewrite get_connector_info_fetches by assumption.
    now rewrite (fetch_connector_other_error _ _ _ _ _ _ Hs Hrange H404 H409).
Qed.

Lemma C4_stale_configuration_retry_witness :
  (exists info,
     get_connector_info
       (Samples.scripted [Samples.status 409;
                          Samples.ok (Samples.connector "x" Samples.activemq);
                          Samples.ok (Samples.running "x")])
       2 Samples.connect "x" []
     = (Ret info,
        [Sent (request Samples.connect GET "/connectors/x" None);
         Slept 1;
         Sent (request Samples.connect GET "/connectors/x" None);
         Sent (request Samples.connect GET "/connectors/x/status" None)])) /\
  get_connector_info (Samples.scripted [Samples.status 404]) 1 Samples.connect "x" []
  = (Exc NoConnectorAvailable, [Sent (request Samples.connect GET "/connectors/x" None)]) /\
  get_connector_info (Samples.scripted [Samples.status 500]) 1 Samples.connect "x" []
  = (Exc HTTPError, [Sent (request Samples.connect GET "/connectors/x" None)]).
Proof.
  split; [|split].
  - eexists.
    rewrite (proj1 (C4_stale_configuration_retry
                      (Samples.scripted [Samples.status 409;
                                         Samples.ok (Samples.connector "x" Samples.activemq);
                                         Samples.ok (Samples.running "x")])
                      0 Samples.connect "x" []
                      {| status_code := 409; body := None |}
                      ltac:(discriminate) eq_refl)
                   eq_refl
                   [("name", PStr "x");
                    ("config", PDict (Spec.str_dict Samples.activemq));
                    ("tasks", PList []);
                    ("type", PStr "source")]
                   (PStr "RUNNING")).
    + vm_compute. reflexivity.
    + split; [discriminate|].
      exists {| status_code := 200; body := Some (Samples.connector "x" Samples.activemq) |},
             {| status_code := 200; body := Some (Samples.running "x") |},
             (Samples.running "x").
      repeat split; reflexivity.
  - apply (proj1 (proj2 (C4_stale_configuration_retry
                           (Samples.scripted [Samples.status 404])
                           0 Samples.connect "x" []
                           {| status_code := 404; body := None |}
                           ltac:(discriminate) eq_refl))).
    reflexivity.
  - apply (proj2 (proj2 (C4_stale_configuration_retry
                           (Samples.scripted [Samples.status 500])
                           0 Samples.connect "x" []
                           {| status_code := 500; body := None |}
                           ltac:(discriminate) eq_refl))).
    + cbn. lia.
    + discriminate.
    + discriminate.
Defined.

(** C4, as stated, fails at a status that is neither 2xx nor an error
    status: answered 300, the configuration fetch passes
    [raise_for_status], and [get_connector_info] returns the enriched
    payload instead of raising HTTPError. *)
Lemma C4_status_300_is_not_raised :
  exists info,
    get_connector_info
      (Samples.scripted
         [Replied {| status_code := 300;
                     body := Some (Samples.connector "x" Samples.activemq) |};
          Samples.ok (Samples.running "x")])
      1 Samples.connect "x" []
    = (Ret info,
       [Sent (request Samples.connect GET "/connectors/x" None);
        Sent (request Samples.connect GET "/connectors/x/status" None)]).
Proof. eexists. vm_compute. reflexivity. Qed.

(** *** Pause, resume, restart and delete *)

Section Lifecycle.
Variable server : Server.
Variable self : KafkaConnectManager.
Variable id : string.
Hypothesis id_given : id <> "".

(** An answer that is no error makes each of the four return [True]. *)
Lemma lifecycle_passed (w : World) (r : Response) :
  raise_for_status r = None ->
  (server (requests_sent w) (request self PUT ("/connectors/" ++ id ++ "/pause") None)
     = Replied r ->
   fst (pause_connector server self id w) = Ret true) /\
  (server (requests_sent w) (request self PUT ("/connectors/" ++ id ++ "/resume") None)
     = Replied r ->
   fst (resume_connector server self id w) = Ret true) /\
  (server (requests_sent w) (request self POST ("/connectors/" ++ id ++ "/restart") None)
     = Replied r ->
   fst (restart_connector server self id w) = Ret true) /\
  (server (requests_sent w) (request self DELETE ("/connectors/" ++ id ++ "/") None)
     = Replied r ->
   fst (delete_connector server self id w) = Ret true).
Proof.
  intros Hr. destruct id as [|c id']; [congruence|].
  repeat split; intros Hs;
    unfold pause_connector, resume_connector, restart_connector, delete_connector;
    cbn [String.length Nat.eqb]; unfold bind;
    now rewrite (attempt_passed _ _ _ _ Hs Hr).
Qed.

(** Resume, restart and delete tell a 404 from the other error statuses. *)
Lemma resume_restart_delete_error (w : World) (r : Response) :
  (400 <= status_code r < 600)%Z ->
  let e := if (status_code r =? 404)%Z then NoConnectorAvailable else HTTPError in
  (server (requests_sent w) (request self PUT ("/connectors/" ++ id ++ "/resume") None)
     = Replied r ->
   fst (resume_connector server self id w) = Exc e) /\
  (server (requests_sent w) (request self POST ("/connectors/" ++ id ++ "/restart") None)
     = Replied r ->
   fst (restart_connector server self id w) = Exc e) /\
  (server (requests_sent w) (request self DELETE ("/connectors/" ++ id ++ "/") None)
     = Replied r ->
   fst (delete_connector server self id w) = Exc e).
Proof.
  intros Hrange e. destruct id as [|c id']; [congruence|].
  repeat split; intros Hs;
    unfold resume_connector, restart_connector, delete_connector;
    cbn [String.length Nat.eqb]; unfold bind;
    rewrite (attempt_rejected _ _ _ _ HTTPError Hs)
      by (now apply raise_for_status_error);
    cbn [is_HTTPError]; subst e; now destruct (status_code r =? 404)%Z.
Qed.

(** Pause has no handler for HTTPError: every error status, 404 included,
    leaves it as the HTTPError that [raise_for_status] raised. *)
Lemma pause_connector_error (w : World) (r : Response) :
  (400 <= status_code r < 600)%Z ->
  server (requests_sent w) (request self PUT ("/connectors/" ++ id ++ "/pause") None)
    = Replied r ->
  fst (pause_connector server self id w) = Exc HTTPError.
Proof.
  intros Hrange Hs. destruct id as [|c id']; [congruence|].
  unfold pause_connector. cbn [String.length Nat.eqb]. unfold bind.
  now rewrite (attempt_rejected _ _ _ _ HTTPError Hs)
    by (now apply raise_for_status_error).
Qed.

End Lifecycle.

(** C6, at the connector "x" when the server answers 404: resume, restart
    and delete raise NoConnectorAvailable, but pause raises the generic
    HTTPError, which the taxonomy does not count as not-found. *)
Theorem C6_pause_404_raises_generic_HTTPError :
  pause_connector (Samples.scripted [Samples.status 404]) Samples.connect "x" []
  = (Exc HTTPError, [Sent (request Samples.connect PUT "/connectors/x/pause" None)]) /\
  Spec.taxonomy HTTPError = Some Spec.HttpError /\
  fst (resume_connector (Samples.scripted [Samples.status 404]) Samples.connect "x" [])
  = Exc NoConnectorAvailable /\
  fst (restart_connector (Samples.scripted [Samples.status 404]) Samples.connect "x" [])
  = Exc NoConnectorAvailable /\
  fst (delete_connector (Samples.scripted [Samples.status 404]) Samples.connect "x" [])
  = Exc NoConnectorAvailable /\
  Spec.taxonomy NoConnectorAvailable = Some Spec.ResourceNotFound.
Proof. repeat split; reflexivity. Qed.

(** *** The keys the enrichment needs *)

Lemma str_dict_get (c : list (string * string)) (k : string) (v : pyval) :
  dict_get (Spec.str_dict c) k = Some v -> exists s, v = PStr s.
Proof.
  induction c as [|[k' s'] c IH]; cbn [Spec.str_dict map dict_get fst snd].
  - discriminate.
  - destruct (String.eqb k' k); [intros [= <-]; eauto | exact IH].
Qed.

Ltac index_cases :=
  match goal with
  | |- context [py_index ?l ?i] =>
      let E := fresh "E" in
      destruct (py_index_cases l i) as [[? E]|E]; rewrite E; clear E;
      cbn [obind set_item]
  end.




Lemma config_item_dict (d cfg : dict) (k : string) :
  dict_get d "config" = Some (PDict cfg) ->
  config_item (PDict d) k
  = match dict_get cfg k with Some x => Ret x | None => Exc KeyError end.
Proof. intros Hc. unfold config_item. cbn [get_item obind]. now rewrite Hc. Qed.

Lemma omap_topics_prefixed (d cfg : dict) (prefix : string) (tables : list string) :
  dict_get d "config" = Some (PDict cfg) ->
  dict_get cfg "topic.prefix" = Some (PStr prefix) ->
  omap (fun table =>
          prefix <- config_item (PDict d) "topic.prefix" ;;
          prefix <- py_format prefix ;;
          table <- py_format table ;;
          Ret (PStr (prefix ++ table))) (map PStr tables)
  = Ret (map PStr (map (append prefix) tables)).
Proof.
  intros Hc Hp. induction tables as [|t tables IH]; [reflexivity|].
  cbn [map omap]. rewrite IH.
  unfold config_item. cbn [get_item obind]. rewrite Hc. cbn [get_item obind].
  rewrite Hp. reflexivity.
Qed.

Lemma omap_topics_no_prefix (d cfg : dict) (tables : list string) :
  dict_get d "config" = Some (PDict cfg) ->
  dict_get cfg "topic.prefix" = None ->
  tables <> [] ->
  omap (fun table =>
          prefix <- config_item (PDict d) "topic.prefix" ;;
          prefix <- py_format prefix ;;
          table <- py_format table ;;
          Ret (PStr (prefix ++ table))) (map PStr tables)
  = Exc KeyError.
Proof.
  intros Hc Hp Hne. destruct tables as [|t tables]; [congruence|].
  cbn [map omap]. unfold config_item at 1. cbn [get_item obind].
  rewrite Hc. cbn [get_item obind]. rewrite Hp. reflexivity.
Qed.

(** With a configuration of strings, lines 203 to 212 succeed when
    "topic.prefix" is present and raise [KeyError] when it is not. *)
Lemma tables_topics_subjects_str (d : dict) (c : list (string * string)) :
  dict_get d "config" = Some (PDict (Spec.str_dict c)) ->
  match dict_get (Spec.str_dict c) "topic.prefix" with
  | Some _ => exists d', tables_topics_subjects (PDict d) = Ret (PDict d')
  | None => tables_topics_subjects (PDict d) = Exc KeyError
  end.
Proof.
  intros Hc.
  destruct (dict_get (Spec.str_dict c) "table.whitelist") as [wl|] eqn:Hwl.
  - destruct (str_dict_get _ _ _ Hwl) as [whitelist ->].
    unfold tables_topics_subjects. cbn [get_item obind].
    rewrite Hc. cbn [get_item obind py_in]. unfold dict_has. rewrite Hwl.
    rewrite (config_item_dict d _ "table.whitelist" Hc), Hwl.
    cbn [obind py_split set_item get_item]. dict_lookup. cbn [obind py_iter].
    destruct (dict_get (Spec.str_dict c) "topic.prefix") as [p|] eqn:Hp.
    + destruct (str_dict_get _ _ _ Hp) as [prefix ->].
      rewrite (omap_topics_prefixed _ (Spec.str_dict c) prefix)
        by (dict_lookup; assumption).
      cbn [obind set_item get_item]. dict_lookup. cbn [obind py_iter].
      rewrite omap_key_and_value_strs. cbn [obind]. eauto.
    + rewrite (omap_topics_no_prefix _ (Spec.str_dict c));
        [reflexivity | dict_lookup; assumption | assumption | apply split_nonempty].
  - destruct (dict_get (Spec.str_dict c) "topic.prefix") as [p|] eqn:Hp.
    + destruct (str_dict_get _ _ _ Hp) as [prefix ->].
      rewrite (tables_topics_subjects_query d _ prefix Hc Hwl Hp). eauto.
    + unfold tables_topics_subjects, config_item. cbn [get_item obind].
      rewrite Hc. cbn [get_item obind py_in]. unfold dict_has. rewrite Hwl.
      cbn [obind get_item]. rewrite Hp. reflexivity.
Qed.

Lemma technology_jdbc_source (d cfg : dict) :
  dict_get d "config" = Some (PDict cfg) ->
  dict_get cfg "connector.class" = Some (PStr JdbcSourceConnector) ->
  technology (PDict d)
  = (connector_info <- jdbc_url_fields (PDict (dict_set d "class" (PStr "JDBC"))) ;;
     tables_topics_subjects connector_info).
Proof.
  intros Hc Hcls. unfold technology.
  rewrite (config_item_dict d cfg _ Hc), Hcls. reflexivity.
Qed.

Lemma enrich_without_class (d cfg : dict) :
  dict_get d "config" = Some (PDict cfg) ->
  dict_get cfg "connector.class" = None ->
  enrich (PDict d) = Exc KeyError.
Proof.
  intros Hc Hcls. unfold enrich, type_and_vendor.
  now rewrite (config_item_dict d cfg _ Hc), Hcls.
Qed.





End ConnectFacts.

Module RegistryFacts.
Import Py Http SchemaRegistryManager PyFacts HttpFacts.
Local Open Scope py_scope.
Local Open Scope http_scope.

(** *** The latest version *)

Lemma max_ints_fold (zs : list Z) (best : Z) :
  max_ints best (map PInt zs) = Ret (fold_left Z.max zs best).
Proof.
  revert best. induction zs as [|n zs IH]; intros best; [reflexivity|].
  cbn [map max_ints fold_left]. rewrite IH. f_equal. f_equal.
  destruct (Z.ltb_spec best n); lia.
Qed.

Lemma fold_max_bounds (zs : list Z) (z : Z) :
  (z <= fold_left Z.max zs z)%Z /\
  (forall v, In v zs -> (v <= fold_left Z.max zs z)%Z) /\
  (fold_left Z.max zs z = z \/ In (fold_left Z.max zs z) zs).
Proof.
  revert z. induction zs as [|n zs IH]; intros z; cbn [fold_left In].
  - repeat split; [lia | tauto | now left].
  - destruct (IH (Z.max z n)) as (H1 & H2 & H3). repeat split.
    + lia.
    + intros v [<-|Hv]; [lia | now apply H2].
    + destruct H3 as [H3|H3]; [|now right; right].
      rewrite H3. destruct (Z.max_spec z n) as [[_ ->]|[_ ->]]; [right; now left | now left].
Qed.

(** [max] of a non-empty list of integers is its greatest element. *)
Lemma py_max_ints (z : Z) (zs : list Z) :
  py_max (PList (map PInt (z :: zs))) = Ret (PInt (fold_left Z.max zs z)) /\
  (forall v, In v (z :: zs) -> (v <= fold_left Z.max zs z)%Z) /\
  In (fold_left Z.max zs z) (z :: zs).
Proof.
  destruct (fold_max_bounds zs z) as (H1 & H2 & H3). repeat split.
  - cbn [map py_max]. now rewrite max_ints_fold.
  - intros v [<-|Hv]; [exact H1 | now apply H2].
  - destruct H3 as [->|H3]; [now left | now right].
Qed.



(** *** Deleting a version *)

(** C5, amended: for every non-empty subject and every version, given or
    resolved, when the registry answers the delete-version request with
    404, [delete_subject_version] raises the generic HTTPError, which the
    taxonomy classes as HttpError, after that request. *)
Theorem C5_delete_subject_version_404
    (server : Server) (self : SchemaRegistryManager) (subject : string)
    (version : option pyval) (w w1 : World) (v : pyval) (text : string) (r : Response) :
  subject <> "" ->
  resolve_version server self subject version w = (Ret v, w1) ->
  py_format v = Ret text ->
  server (requests_sent w1)
         (request self DELETE ("/subjects/" ++ subject ++ "/versions/" ++ text))
    = Replied r ->
  status_code r = 404%Z ->
  delete_subject_version server self subject version w
  = (Exc HTTPError,
     w1 ++ [Sent (request self DELETE ("/subjects/" ++ subject ++ "/versions/" ++ text))]) /\
  Spec.taxonomy HTTPError = Some Spec.HttpError.
Proof.
  intros Hsub Hres Hfmt Hs Hc. split; [|reflexivity].
  unfold delete_subject_version.
  destruct subject as [|c subject']; [congruence|]. cbn [String.length Nat.eqb].
  unfold bind at 1. rewrite Hres.
  unfold bind at 1, lift at 1. rewrite Hfmt.
  unfold bind at 1.
  rewrite (attempt_rejected _ _ _ _ HTTPError Hs)
    by (apply raise_for_status_error; lia).
  reflexivity.
Qed.

Lemma C5_delete_subject_version_404_witness :
  delete_subject_version (Samples.scripted [Samples.status 404])
    Samples.registry "orders-value" (Some (PInt 3)) []
  = (Exc HTTPError,
     [Sent (request Samples.registry DELETE "/subjects/orders-value/versions/3")]) /\
  Spec.taxonomy HTTPError = Some Spec.HttpError.
Proof.
  refine (C5_delete_subject_version_404
            (Samples.scripted [Samples.status 404])
            Samples.registry "orders-value" (Some (PInt 3)) [] [] (PInt 3) "3"
            {| status_code := 404; body := None |} _ _ _ _ _).
  - discriminate.
  - reflexivity.
  - reflexivity.
  - reflexivity.
  - reflexivity.
Defined.

(** C5, as stated, fails: a 404 answer to the delete-version request
    leaves [delete_subject_version] as HTTPError, which is not the
    not-found class of the taxonomy. *)
Lemma C5_delete_version_404_is_not_ResourceNotFound :
  exists e,
    fst (delete_subject_version (Samples.scripted [Samples.status 404])
           Samples.registry "orders-value" (Some (PInt 3)) []) = Exc e /\
    e = HTTPError /\
    Spec.taxonomy e <> Some Spec.ResourceNotFound.
Proof. exists HTTPError. repeat split. discriminate. Qed.

(** *** The schema of an identifier *)

(** C7, amended: [get_schema] raises ValueError, with no request sent, for
    every schema_id that is not an instance of [int]; every integer, a
    negative one included, passes the check and is requested from the
    registry. *)
Theorem C7_get_schema_checks_the_type_only
    (server : Server) (json_loads : string -> option pyval)
    (self : SchemaRegistryManager) (schema_id : pyval) (w : World) :
  (isinstance_int schema_id = false ->
   get_schema server json_loads self schema_id w = (Exc ValueError, w)) /\
  (forall n, schema_id = PInt n ->
   snd (get_schema server json_loads self schema_id w)
   = w ++ [Sent (request self GET ("/schemas/ids/" ++ str_of_Z n))]).
Proof.
  split.
  - intros H. unfold get_schema. now rewrite H.
  - intros n ->. unfold get_schema. cbn [isinstance_int negb].
    unfold bind at 1, lift at 1. cbn [py_format].
    unfold bind at 1, attempt.
    destruct (server (requests_sent w) _) as [|r]; [reflexivity|].
    destruct (raise_for_status r); [reflexivity|].
    unfold bind, checked, ret, lift.
    now destruct (j <- json r ;; schema <- get_item j "schema" ;; loads json_loads schema).
Qed.

Lemma C7_get_schema_checks_the_type_only_witness :
  get_schema (Samples.scripted []) Samples.no_loads Samples.registry (PStr "7") []
  = (Exc ValueError, []) /\
  snd (get_schema (Samples.scripted [Samples.status 404]) Samples.no_loads
         Samples.registry (PInt (-1)) [])
  = [Sent (request Samples.registry GET "/schemas/ids/-1")].
Proof.
  split.
  - refine (proj1 (C7_get_schema_checks_the_type_only
                     (Samples.scripted []) Samples.no_loads Samples.registry
                     (PStr "7") []) _).
    reflexivity.
  - refine (proj2 (C7_get_schema_checks_the_type_only
                     (Samples.scripted [Samples.status 404]) Samples.no_loads
                     Samples.registry (PInt (-1)) []) (-1)%Z _).
    reflexivity.
Defined.

(** C7, as stated, fails at a negative integer: for schema_id -1 no
    ValueError is raised before the network, the request for
    /schemas/ids/-1 is sent and the answer of the registry decides. *)
Lemma C7_negative_schema_id_is_requested :
  get_schema (Samples.scripted [Samples.status 404]) Samples.no_loads
    Samples.registry (PInt (-1)) []
  = (Exc HTTPError, [Sent (request Samples.registry GET "/schemas/ids/-1")]).
Proof. reflexivity. Qed.

(** *** Empty identifiers *)

(** C8: every method of either manager that takes a connector name or a
    subject raises ValueError on the empty string and leaves the history
    as it was, so no request has been sent. *)
Theorem C8_empty_identifier_is_rejected
    (server : Server) (json_loads : string -> option pyval)
    (json_dumps : pyval -> string) (avro_parse : string -> option exn)
    (connect : ConnectManager.KafkaConnectManager) (registry : SchemaRegistryManager)
    (fuel : nat) (config avro_schema : pyval) (version : option pyval) (w : World) :
  ConnectManager.get_connector_info server fuel connect "" w = (Exc ValueError, w) /\
  ConnectManager.get_connector_status server connect "" w = (Exc ValueError, w) /\
  ConnectManager.load_connector server json_loads connect "" config w = (Exc ValueError, w) /\
  ConnectManager.pause_connector server connect "" w = (Exc ValueError, w) /\
  ConnectManager.resume_connector server connect "" w = (Exc ValueError, w) /\
  ConnectManager.restart_connector server connect "" w = (Exc ValueError, w) /\
  ConnectManager.delete_connector server connect "" w = (Exc ValueError, w) /\
  get_subject_versions server registry "" w = (Exc ValueError, w) /\
  get_subject_schema server registry "" version w = (Exc ValueError, w) /\
  get_subject_schema_id server registry "" version w = (Exc ValueError, w) /\
  register_schema server json_loads json_dumps avro_parse registry "" avro_schema w
  = (Exc ValueError, w) /\
  delete_subject server registry "" w = (Exc ValueError, w) /\
  delete_subject_version server registry "" version w = (Exc ValueError, w).
Proof. repeat split; reflexivity. Qed.

End RegistryFacts.

(** * Further properties of connect_manager.py *)

Module ConnectExtras.
Import Py Http ConnectManager PyFacts HttpFacts ConnectFacts.
Local Open Scope py_scope.
Local Open Scope http_scope.

Lemma eq_str_true (v : pyval) (s : string) : eq_str v s = true -> v = PStr s.
Proof.
  destruct v; cbn [eq_str]; try discriminate.
  intros H. apply String.eqb_eq in H. now subst.
Qed.

(** *** Listing the connectors *)

(** X1: [get_connectors] raises ValueError for every type other than
    "source", "sink" and "all", and sends no request. *)
Theorem get_connectors_rejects_unknown_type
    (server : Server) (fuel : nat) (self : KafkaConnectManager) (type_ : string)
    (w : World) :
  type_ <> "source" -> type_ <> "sink" -> type_ <> "all" ->
  get_connectors server fuel self type_ w = (Exc ValueError, w).
Proof.
  intros H1 H2 H3. unfold get_connectors, valid_connect_types. cbn [existsb].
  apply String.eqb_neq in H1, H2, H3. now rewrite H1, H2, H3.
Qed.

Lemma get_connectors_rejects_unknown_type_witness :
  get_connectors (Samples.scripted []) 1 Samples.connect "Source" []
  = (Exc ValueError, []).
Proof.
  apply get_connectors_rejects_unknown_type; discriminate.
Defined.

Lemma collect_keeps_type
    (server : Server) (fuel : nat) (self : KafkaConnectManager) (type_ : string)
    (connectors : list pyval) :
  String.eqb type_ "all" = false ->
  forall (response : list pyval) (w : World) (infos : list pyval) (w' : World),
    Forall (fun info => get_item info "type" = Ret (PStr type_)) response ->
    collect server fuel self type_ connectors response w = (Ret infos, w') ->
    Forall (fun info => get_item info "type" = Ret (PStr type_)) infos.
Proof.
  intros Hall. induction connectors as [|connector connectors IH];
    intros response w infos w' Hresp; cbn [collect].
  - unfold ret. now intros [= <- _].
  - unfold bind at 1.
    destruct (get_connector_info_of server fuel self connector w) as [[info|e|l] w1];
      try discriminate.
    rewrite Hall. unfold bind at 1, bind at 1, lift at 1.
    destruct (get_item info "type") as [type|e|l] eqn:Htype; try discriminate.
    unfold ret at 1.
    destruct (eq_str type type_) eqn:Heq.
    + apply IH. apply Forall_app. split; [exact Hresp|].
      constructor; [|constructor]. now rewrite Htype, (eq_str_true _ _ Heq).
    + now apply IH.
Qed.

Lemma collect_length
    (server : Server) (fuel : nat) (self : KafkaConnectManager) (type_ : string)
    (connectors : list pyval) :
  forall (response : list pyval) (w : World) (infos : list pyval) (w' : World),
    collect server fuel self type_ connectors response w = (Ret infos, w') ->
    (length infos <= length response + length connectors)%nat /\
    (type_ = "all" -> length infos = (length response + length connectors)%nat).
Proof.
  induction connectors as [|connector connectors IH];
    intros response w infos w'; cbn [collect].
  - unfold ret. intros [= <- _]. cbn [length]. split; intros; lia.
  - unfold bind at 1.
    destruct (get_connector_info_of server fuel self connector w) as [[info|e|l] w1];
      try discriminate.
    unfold bind at 1.
    destruct (String.eqb type_ "all") eqn:Hall.
    + unfold ret at 1. intros H. apply IH in H. rewrite length_app in H.
      cbn [length] in *. split; [lia|]. intros Ht. destruct H as [_ H]. specialize (H Ht). lia.
    + unfold bind at 1, lift at 1.
      destruct (get_item info "type") as [type|e|l]; try discriminate.
      unfold ret at 1. intros H. apply IH in H.
      apply String.eqb_neq in Hall.
      destruct (eq_str type type_); rewrite ?length_app in H; cbn [length] in *;
        (split; [lia | congruence]).
Qed.

Lemma get_connectors_collects
    (server : Server) (fuel : nat) (self : KafkaConnectManager) (type_ : string)
    (w : World) (infos : list pyval) (w' : World) :
  get_connectors server fuel self type_ w = (Ret (PList infos), w') ->
  exists r names w1,
    server (requests_sent w) (request self GET "/connectors" None) = Replied r /\
    (names <- json r ;; py_iter names) = Ret names /\
    collect server fuel self type_ names [] w1 = (Ret infos, w').
Proof.
  unfold get_connectors.
  destruct (negb _); [discriminate|].
  unfold bind at 1, attempt.
  destruct (server (requests_sent w) (request self GET "/connectors" None)) as [|r];
    [discriminate|].
  destruct (raise_for_status r); [discriminate|].
  unfold bind at 1, lift at 1.
  destruct (names <- json r ;; py_iter names) as [names|e|l] eqn:Hn; try discriminate.
  unfold bind.
  destruct (collect server fuel self type_ names [] _) as [[response|e|l] w2] eqn:Hc;
    try discriminate.
  unfold ret. intros [= <- <-]. eauto 7.
Qed.

(** X2: when [get_connectors] is asked for "source" or for "sink", every
    dictionary it returns has that value under "type". *)
Theorem get_connectors_filters_by_type
    (server : Server) (fuel : nat) (self : KafkaConnectManager) (type_ : string)
    (w : World) (infos : list pyval) (w' : World) :
  type_ <> "all" ->
  get_connectors server fuel self type_ w = (Ret (PList infos), w') ->
  Forall (fun info => get_item info "type" = Ret (PStr type_)) infos.
Proof.
  intros Hall H.
  destruct (get_connectors_collects _ _ _ _ _ _ _ H) as (r & names & w1 & _ & _ & Hc).
  apply String.eqb_neq in Hall.
  apply (collect_keeps_type server fuel self type_ names Hall [] w1 infos w'); [constructor|exact Hc].
Qed.

Lemma get_connectors_filters_by_type_witness :
  length (Samples.returned_list
            (fst (get_connectors Samples.two_connectors 1 Samples.connect "source" [])))
  = 1%nat /\
  Forall (fun info => get_item info "type" = Ret (PStr "source"))
         (Samples.returned_list
            (fst (get_connectors Samples.two_connectors 1 Samples.connect "source" []))).
Proof.
  split; [vm_compute; reflexivity|].
  apply (get_connectors_filters_by_type Samples.two_connectors 1 Samples.connect "source" []
           _ (snd (get_connectors Samples.two_connectors 1 Samples.connect "source" []))).
  - discriminate.
  - vm_compute. reflexivity.
Defined.

(** X3: [get_connectors] returns at most one dictionary for each element
    of the list the server sent, and exactly one for each when asked for
    "all". *)
Theorem get_connectors_one_info_per_name
    (server : Server) (fuel : nat) (self : KafkaConnectManager) (type_ : string)
    (w : World) (r : Response) (names infos : list pyval) (w' : World) :
  server (requests_sent w) (request self GET "/connectors" None) = Replied r ->
  (names <- json r ;; py_iter names) = Ret names ->
  get_connectors server fuel self type_ w = (Ret (PList infos), w') ->
  (length infos <= length names)%nat /\
  (type_ = "all" -> length infos = length names).
Proof.
  intros Hs Hn H.
  destruct (get_connectors_collects _ _ _ _ _ _ _ H) as (r' & names' & w1 & Hs' & Hn' & Hc).
  rewrite Hs in Hs'. injection Hs' as <-. rewrite Hn in Hn'. injection Hn' as <-.
  now apply collect_length in Hc.
Qed.

Lemma get_connectors_one_info_per_name_witness :
  (length (Samples.returned_list
             (fst (get_connectors Samples.two_connectors 1 Samples.connect "all" [])))
   <= 2)%nat /\
  ("all" = "all" ->
   length (Samples.returned_list
             (fst (get_connectors Samples.two_connectors 1 Samples.connect "all" [])))
   = 2%nat).
Proof.
  apply (get_connectors_one_info_per_name Samples.two_connectors 1 Samples.connect "all" []
           {| status_code := 200; body := Some (PList [PStr "s"; PStr "x"]) |}
           [PStr "s"; PStr "x"] _
           (snd (get_connectors Samples.two_connectors 1 Samples.connect "all" []))).
  - reflexivity.
  - reflexivity.
  - vm_compute. reflexivity.
Defined.

(** *** The constructor and the status *)

(** X4: the constructor sends one probe to the root of the server and
    accepts every answer, whatever its status; only an unreachable
    server makes it raise NoConnectServerAvailable.  The manager it
    returns addresses "<hostname>:<port>". *)
Theorem init_accepts_every_answer
    (server : Server) (manager_hostname manager_port : string) (w : World) :
  let self := {| _manager := manager_hostname;
                 _manager_port := manager_port;
                 _manager_ip := manager_hostname ++ ":" ++ manager_port;
                 _headers := [("accept", "application/json")] |} in
  (server (requests_sent w) (request self GET "" None) = Unreachable ->
   __init__ server manager_hostname manager_port w
   = (Exc NoConnectServerAvailable, w ++ [Sent (request self GET "" None)])) /\
  (forall r, server (requests_sent w) (request self GET "" None) = Replied r ->
   __init__ server manager_hostname manager_port w
   = (Ret self, w ++ [Sent (request self GET "" None)])).
Proof.
  intros self. split.
  - intros Hs. unfold __init__, bind, attempt. fold self. now rewrite Hs.
  - intros r Hs. unfold __init__, bind, attempt. fold self. rewrite Hs.
    destruct (raise_for_status r) as [e|] eqn:Hr; [|reflexivity].
    now rewrite (raise_for_status_only_HTTPError _ _ Hr).
Qed.

Lemma init_accepts_every_answer_witness :
  fst (__init__ (Samples.scripted []) "connect" "8083" []) = Exc NoConnectServerAvailable /\
  fst (__init__ (Samples.scripted [Samples.status 500]) "connect" "8083" [])
  = Ret Samples.connect.
Proof.
  split.
  - refine (f_equal fst (proj1 (init_accepts_every_answer
                                  (Samples.scripted []) "connect" "8083" []) _)).
    reflexivity.
  - refine (f_equal fst (proj2 (init_accepts_every_answer
                                  (Samples.scripted [Samples.status 500])
                                  "connect" "8083" [])
                           {| status_code := 500; body := None |} _)).
    reflexivity.
Defined.

(** X5: for a non-empty name [get_connector_status] sends one request to
    /connectors/<name>/status; an unreachable server raises
    NoConnectServerAvailable, a 404 NoConnectorAvailable, any other status
    from 400 to 599 HTTPError, and any other answer gives the "state"
    entry of the "connector" entry of its body. *)
Theorem get_connector_status_outcomes
    (server : Server) (self : KafkaConnectManager) (id : string) (w : World) :
  id <> "" ->
  let rq := request self GET ("/connectors/" ++ id ++ "/status") None in
  snd (get_connector_status server self id w) = w ++ [Sent rq] /\
  (server (requests_sent w) rq = Unreachable ->
   fst (get_connector_status server self id w) = Exc NoConnectServerAvailable) /\
  (forall r, server (requests_sent w) rq = Replied r ->
   fst (get_connector_status server self id w)
   = if ((400 <=? status_code r) && (status_code r <? 600))%Z
     then (if (status_code r =? 404)%Z then Exc NoConnectorAvailable else Exc HTTPError)
     else (status <- json r ;;
           connector <- get_item status "connector" ;;
           get_item connector "state")).
Proof.
  intros Hid rq. unfold get_connector_status.
  destruct id as [|c id']; [congruence|]. cbn [String.length Nat.eqb].
  unfold bind, attempt. fold rq.
  destruct (server (requests_sent w) rq) as [|r].
  - repeat split; [intros r; discriminate].
  - unfold raise_for_status.
    destruct ((400 <=? status_code r) && (status_code r <? 600))%Z eqn:Hrange.
    + cbn [is_HTTPError].
      repeat split; try discriminate;
        try (intros r' [= <-]; rewrite Hrange);
        destruct (status_code r =? 404)%Z; reflexivity.
    + unfold lift. repeat split; try discriminate.
      intros r' [= <-]. now rewrite Hrange.
Qed.

Lemma get_connector_status_outcomes_witness :
  snd (get_connector_status (Samples.scripted [Samples.ok (Samples.running "x")])
         Samples.connect "x" [])
  = [Sent (request Samples.connect GET "/connectors/x/status" None)] /\
  fst (get_connector_status (Samples.scripted [Samples.ok (Samples.running "x")])
         Samples.connect "x" [])
  = Ret (PStr "RUNNING").
Proof.
  split.
  - refine (proj1 (get_connector_status_outcomes
                     (Samples.scripted [Samples.ok (Samples.running "x")])
                     Samples.connect "x" [] _)).
    discriminate.
  - refine (proj2 (proj2 (get_connector_status_outcomes
                            (Samples.scripted [Samples.ok (Samples.running "x")])
                            Samples.connect "x" [] _))
              {| status_code := 200; body := Some (Samples.running "x") |} _).
    + discriminate.
    + reflexivity.
Defined.

(** *** Failures of [get_connector_info] around its two fetches *)

(** X6: an error status of the status fetch is not retried, not even 409:
    once the configuration has been fetched, a 404 answer to the status
    request raises NoConnectorAvailable and every other status from 400 to
    599 raises HTTPError, after the two requests and without any sleep. *)
Theorem get_connector_info_status_error
    (server : Server) (fuel : nat) (self : KafkaConnectManager) (id : string)
    (w : World) (r1 r2 : Response) (d : dict) :
  id <> "" ->
  server (requests_sent w) (request self GET ("/connectors/" ++ id) None) = Replied r1 ->
  raise_for_status r1 = None ->
  body r1 = Some (PDict d) ->
  server (S (requests_sent w)) (request self GET ("/connectors/" ++ id ++ "/status") None)
    = Replied r2 ->
  (400 <= status_code r2 < 600)%Z ->
  get_connector_info server (S fuel) self id w
  = (Exc (if (status_code r2 =? 404)%Z then NoConnectorAvailable else HTTPError),
     w ++ [Sent (request self GET ("/connectors/" ++ id) None);
           Sent (request self GET ("/connectors/" ++ id ++ "/status") None)]).
Proof.
  intros Hid H1 Hok1 Hb1 H2 Hrange.
  rewrite get_connector_info_fetches by assumption.
  rewrite (fetch_connector_passed _ _ _ _ _ _ H1 Hok1).
  unfold bind at 1, lift at 1, json. rewrite Hb1.
  unfold bind at 1, lift at 1. cbn [set_item].
  unfold bind at 1, get_connector_status.
  destruct id as [|c id']; [congruence|]. cbn [String.length Nat.eqb].
  unfold bind at 1.
  rewrite <- requests_sent_Sent
    with (rq := request self GET ("/connectors/" ++ String c id') None) in H2.
  rewrite (attempt_rejected _ _ _ _ HTTPError H2)
    by (now apply raise_for_status_error).
  cbn [is_HTTPError]. rewrite <- app_assoc.
  now destruct (status_code r2 =? 404)%Z.
Qed.

Lemma get_connector_info_status_error_witness :
  get_connector_info
    (Samples.scripted [Samples.ok (Samples.connector "x" Samples.activemq);
                       Samples.status 409])
    1 Samples.connect "x" []
  = (Exc HTTPError,
     [Sent (request Samples.connect GET "/connectors/x" None);
      Sent (request Samples.connect GET "/connectors/x/status" None)]).
Proof.
  refine (get_connector_info_status_error
            (Samples.scripted [Samples.ok (Samples.connector "x" Samples.activemq);
                               Samples.status 409])
            0 Samples.connect "x" []
            {| status_code := 200; body := Some (Samples.connector "x" Samples.activemq) |}
            {| status_code := 409; body := None |}
            [("name", PStr "x");
             ("config", PDict (Spec.str_dict Samples.activemq));
             ("tasks", PList []);
             ("type", PStr "source")]
            _ _ _ _ _ _).
  - discriminate.
  - reflexivity.
  - reflexivity.
  - reflexivity.
  - reflexivity.
  - cbn. lia.
Defined.

(** X7: however many 409 answers the configuration fetch gets in a row,
    [get_connector_info] absorbs them all: after [k] of them and then an
    answer that is no error, it has sent the configuration request k+1
    times, slept one second after each 409, and returns the enrichment of
    the last answer. *)
Theorem get_connector_info_absorbs_every_409
    (server : Server) (k fuel : nat) (self : KafkaConnectManager) (id : string)
    (w : World) (d : dict) (state : pyval) :
  (forall i, (i < k)%nat ->
     exists r, server (requests_sent w + i) (request self GET ("/connectors/" ++ id) None)
               = Replied r /\ status_code r = 409%Z) ->
  Spec.fetched server self id
    (w ++ Spec.stale (request self GET ("/connectors/" ++ id) None) k) d state ->
  get_connector_info server (k + S fuel) self id w
  = (enrich (PDict (dict_set (dict_set d "vendor" (PStr "Unknown")) "state" state)),
     w ++ Spec.stale (request self GET ("/connectors/" ++ id) None) k
       ++ [Sent (request self GET ("/connectors/" ++ id) None);
           Sent (request self GET ("/connectors/" ++ id ++ "/status") None)]).
Proof.
  intros H409 Hf.
  assert (Hid : id <> "") by apply Hf.
  rewrite get_connector_info_fetches by assumption.
  rewrite (fetch_connector_retries _ _ _ _ _ _ H409).
  rewrite <- get_connector_info_fetches by assumption.
  rewrite (get_connector_info_enriches _ _ _ _ _ _ _ Hf).
  now rewrite <- app_assoc.
Qed.

Lemma get_connector_info_absorbs_every_409_witness :
  exists info,
    get_connector_info
      (Samples.scripted [Samples.status 409; Samples.status 409; Samples.status 409;
                         Samples.ok (Samples.connector "x" Samples.activemq);
                         Samples.ok (Samples.running "x")])
      4 Samples.connect "x" []
    = (Ret info,
       [Sent (request Samples.connect GET "/connectors/x" None); Slept 1;
        Sent (request Samples.connect GET "/connectors/x" None); Slept 1;
        Sent (request Samples.connect GET "/connectors/x" None); Slept 1;
        Sent (request Samples.connect GET "/connectors/x" None);
        Sent (request Samples.connect GET "/connectors/x/status" None)]).
Proof.
  eexists.
  refine (eq_trans
            (get_connector_info_absorbs_every_409
               (Samples.scripted [Samples.status 409; Samples.status 409; Samples.status 409;
                                  Samples.ok (Samples.connector "x" Samples.activemq);
                                  Samples.ok (Samples.running "x")])
               3 0 Samples.connect "x" []
               [("name", PStr "x");
                ("config", PDict (Spec.str_dict Samples.activemq));
                ("tasks", PList []);
                ("type", PStr "source")]
               (PStr "RUNNING") _ _) _).
  - intros i Hi. exists {| status_code := 409; body := None |}.
    destruct i as [|[|[|i]]]; [split; reflexivity ..| lia].
  - split; [discriminate|].
    exists {| status_code := 200; body := Some (Samples.connector "x" Samples.activemq) |},
           {| status_code := 200; body := Some (Samples.running "x") |},
           (Samples.running "x").
    repeat split; reflexivity.
  - vm_compute. reflexivity.
Defined.

(** X8: [get_connector_info] stops after its first request, before the
    status is asked for, when the server cannot be reached
    (NoConnectServerAvailable), when the answer has no JSON body
    (JSONDecodeError) and when the body is JSON but not an object
    (TypeError). *)
Theorem get_connector_info_stops_before_status
    (server : Server) (fuel : nat) (self : KafkaConnectManager) (id : string) (w : World) :
  id <> "" ->
  let rq := request self GET ("/connectors/" ++ id) None in
  (server (requests_sent w) rq = Unreachable ->
   get_connector_info server (S fuel) self id w
   = (Exc NoConnectServerAvailable, w ++ [Sent rq])) /\
  (forall r, server (requests_sent w) rq = Replied r -> raise_for_status r = None ->
   body r = None ->
   get_connector_info server (S fuel) self id w = (Exc JSONDecodeError, w ++ [Sent rq])) /\
  (forall r v, server (requests_sent w) rq = Replied r -> raise_for_status r = None ->
   body r = Some v -> (forall d, v <> PDict d) ->
   get_connector_info server (S fuel) self id w = (Exc TypeError, w ++ [Sent rq])).
Proof.
  intros Hid rq. repeat split.
  - intros Hs. rewrite get_connector_info_fetches by assumption.
    cbn [fetch_connector]. unfold bind, attempt. fold rq. now rewrite Hs.
  - intros r Hs Hok Hb. rewrite get_connector_info_fetches by assumption.
    rewrite (fetch_connector_passed _ _ _ _ _ _ Hs Hok).
    unfold bind, lift, json. now rewrite Hb.
  - intros r v Hs Hok Hb Hv. rewrite get_connector_info_fetches by assumption.
    rewrite (fetch_connector_passed _ _ _ _ _ _ Hs Hok).
    unfold bind at 1, lift at 1, json. rewrite Hb.
    unfold bind at 1, lift at 1.
    destruct v; try reflexivity. now destruct (Hv d).
Qed.

Lemma get_connector_info_stops_before_status_witness :
  get_connector_info (Samples.scripted []) 1 Samples.connect "x" []
  = (Exc NoConnectServerAvailable, [Sent (request Samples.connect GET "/connectors/x" None)]) /\
  get_connector_info (Samples.scripted [Samples.status 204]) 1 Samples.connect "x" []
  = (Exc JSONDecodeError, [Sent (request Samples.connect GET "/connectors/x" None)]) /\
  get_connector_info (Samples.scripted [Samples.ok (PList [])]) 1 Samples.connect "x" []
  = (Exc TypeError, [Sent (request Samples.connect GET "/connectors/x" None)]).
Proof.
  split; [|split].
  - refine (proj1 (get_connector_info_stops_before_status
                     (Samples.scripted []) 0 Samples.connect "x" [] _) _).
    + discriminate.
    + reflexivity.
  - refine (proj1 (proj2 (get_connector_info_stops_before_status
                            (Samples.scripted [Samples.status 204]) 0 Samples.connect "x" [] _))
              {| status_code := 204; body := None |} _ _ _).
    + discriminate.
    + reflexivity.
    + reflexivity.
    + reflexivity.
  - refine (proj2 (proj2 (get_connector_info_stops_before_status
                            (Samples.scripted [Samples.ok (PList [])]) 0 Samples.connect "x" [] _))
              {| status_code := 200; body := Some (PList []) |} (PList []) _ _ _ _).
    + discriminate.
    + reflexivity.
    + reflexivity.
    + reflexivity.
    + discriminate.
Defined.

(** *** Resume, restart and delete *)

(** X30: for a non-empty name, [resume_connector], [restart_connector]
    and [delete_connector] each send one request, PUT
    /connectors/<name>/resume, POST /connectors/<name>/restart and DELETE
    /connectors/<name>/; each raises NoConnectServerAvailable when the
    server cannot be reached, NoConnectorAvailable on a 404, HTTPError on
    every other status from 400 to 599, and returns [True] otherwise. *)
Theorem resume_restart_delete_outcomes
    (server : Server) (self : KafkaConnectManager) (id : string) (w : World) :
  id <> "" ->
  let outcome_of rq :=
    (match server (requests_sent w) rq with
     | Unreachable => Exc NoConnectServerAvailable
     | Replied r =>
         if ((400 <=? status_code r) && (status_code r <? 600))%Z
         then (if (status_code r =? 404)%Z then Exc NoConnectorAvailable else Exc HTTPError)
         else Ret true
     end,
     w ++ [Sent rq]) in
  resume_connector server self id w
  = outcome_of (request self PUT ("/connectors/" ++ id ++ "/resume") None) /\
  restart_connector server self id w
  = outcome_of (request self POST ("/connectors/" ++ id ++ "/restart") None) /\
  delete_connector server self id w
  = outcome_of (request self DELETE ("/connectors/" ++ id ++ "/") None).
Proof.
  intros Hid outcome_of.
  unfold resume_connector, restart_connector, delete_connector, outcome_of.
  destruct id as [|c id']; [congruence|]. cbn [String.length Nat.eqb].
  unfold bind, attempt, raise_for_status.
  repeat split;
    match goal with
    | |- context [server ?n ?rq] => destruct (server n rq) as [|r]; [reflexivity|]
    end;
    destruct ((400 <=? status_code r) && (status_code r <? 600))%Z; [|reflexivity| |reflexivity| |reflexivity];
    cbn [is_HTTPError]; now destruct (status_code r =? 404)%Z.
Qed.

Lemma resume_restart_delete_outcomes_witness :
  resume_connector (Samples.scripted [Samples.status 202]) Samples.connect "x" []
  = (Ret true, [Sent (request Samples.connect PUT "/connectors/x/resume" None)]) /\
  restart_connector (Samples.scripted [Samples.status 404]) Samples.connect "x" []
  = (Exc NoConnectorAvailable,
     [Sent (request Samples.connect POST "/connectors/x/restart" None)]) /\
  delete_connector (Samples.scripted [Samples.status 409]) Samples.connect "x" []
  = (Exc HTTPError, [Sent (request Samples.connect DELETE "/connectors/x/" None)]).
Proof.
  split; [|split].
  - refine (proj1 (resume_restart_delete_outcomes
                     (Samples.scripted [Samples.status 202]) Samples.connect "x" [] _)).
    discriminate.
  - refine (proj1 (proj2 (resume_restart_delete_outcomes
                            (Samples.scripted [Samples.status 404]) Samples.connect "x" [] _))).
    discriminate.
  - refine (proj2 (proj2 (resume_restart_delete_outcomes
                            (Samples.scripted [Samples.status 409]) Samples.connect "x" [] _))).
    discriminate.
Defined.

End ConnectExtras.

(** * Further properties of the enrichment *)

Module EnrichExtras.
Import Py Http ConnectManager PyFacts HttpFacts ConnectFacts.
Local Open Scope py_scope.
Local Open Scope http_scope.

(** Proves that a dictionary built by assignments to listed keys agrees
    with the one it was built from on every other key. *)
Ltac solve_keeps :=
  let k := fresh "k" in
  let Hk := fresh "Hk" in
  intros k Hk;
  cbn [Spec.among Spec.assigned_keys Spec.technology_keys existsb] in Hk;
  repeat (apply orb_false_elim in Hk; let H := fresh "H" in destruct Hk as [H Hk]);
  rewrite ?dict_get_set_ne by assumption;
  try reflexivity.

(** *** Type and vendor *)

Lemma type_and_vendor_str (d cfg : dict) (class : string) :
  dict_get d "config" = Some (PDict cfg) ->
  dict_get cfg "connector.class" = Some (PStr class) ->
  type_and_vendor (PDict d)
  = Ret (PDict (if contains "confluent" class
                then dict_set (dict_set d "type" (PStr (Spec.type_of class)))
                              "vendor" (PStr "Confluent")
                else dict_set d "type" (PStr (Spec.type_of class)))).
Proof.
  intros Hc Hk. unfold type_and_vendor.
  rewrite (config_item_dict d cfg _ Hc), Hk. cbn [obind py_in].
  unfold Spec.type_of.
  destruct (contains "Source" class); [|destruct (contains "Sink" class)];
    cbn [obind set_item]; now destruct (contains "confluent" class).
Qed.

(** *** Tables, topics and subjects with a whitelist *)

Lemma subjects_of_length (topics : list string) :
  length (Spec.subjects_of topics) = (2 * length topics)%nat.
Proof.
  unfold Spec.subjects_of. induction topics as [|t topics IH]; [reflexivity|].
  cbn [map concat length app]. rewrite IH. lia.
Qed.

(** X9: with a whitelist, lines 203 to 212 make one table of each piece
    between the commas of "table.whitelist", as it stands, one topic for
    each table, the prefix followed by the table name, in the same order,
    and the key and value subjects of each topic in turn: as many topics
    as tables and twice as many subjects. *)
Theorem tables_topics_subjects_whitelist (d cfg : dict) (whitelist prefix : string) :
  dict_get d "config" = Some (PDict cfg) ->
  dict_get cfg "table.whitelist" = Some (PStr whitelist) ->
  dict_get cfg "topic.prefix" = Some (PStr prefix) ->
  let tables := split "," whitelist in
  let topics := map (append prefix) tables in
  tables_topics_subjects (PDict d)
  = Ret (PDict (dict_set
                  (dict_set (dict_set d "tables" (PList (map PStr tables)))
                            "topics" (PList (map PStr topics)))
                  "subjects" (PList (Spec.subjects_of topics)))) /\
  length topics = length tables /\
  length (Spec.subjects_of topics) = (2 * length tables)%nat /\
  tables <> [].
Proof.
  intros Hc Hwl Hp tables topics. split; [|split; [|split]].
  - unfold tables_topics_subjects. cbn [get_item obind].
    rewrite Hc. cbn [get_item obind py_in]. unfold dict_has. rewrite Hwl.
    rewrite (config_item_dict d _ "table.whitelist" Hc), Hwl.
    cbn [obind py_split set_item get_item]. dict_lookup. cbn [obind py_iter].
    rewrite (omap_topics_prefixed _ cfg prefix) by (dict_lookup; assumption).
    cbn [obind set_item get_item]. dict_lookup. cbn [obind py_iter].
    rewrite omap_key_and_value_strs. reflexivity.
  - apply length_map.
  - rewrite subjects_of_length. unfold topics. now rewrite length_map.
  - apply split_nonempty.
Qed.

Lemma tables_topics_subjects_whitelist_witness :
  tables_topics_subjects
    (PDict [("config", PDict [("table.whitelist", PStr "a, b,"); ("topic.prefix", PStr "p.")])])
  = Ret (PDict [("config", PDict [("table.whitelist", PStr "a, b,"); ("topic.prefix", PStr "p.")]);
                ("tables", PList [PStr "a"; PStr " b"; PStr ""]);
                ("topics", PList [PStr "p.a"; PStr "p. b"; PStr "p."]);
                ("subjects", PList [PStr "p.a-key"; PStr "p.a-value";
                                    PStr "p. b-key"; PStr "p. b-value";
                                    PStr "p.-key"; PStr "p.-value"])]).
Proof.
  refine (eq_trans
            (proj1 (tables_topics_subjects_whitelist
                      [("config", PDict [("table.whitelist", PStr "a, b,");
                                         ("topic.prefix", PStr "p.")])]
                      [("table.whitelist", PStr "a, b,"); ("topic.prefix", PStr "p.")]
                      "a, b," "p." _ _ _)) _).
  - reflexivity.
  - reflexivity.
  - reflexivity.
  - reflexivity.
Defined.

(** *** What the enrichment leaves alone *)

Lemma jdbc_url_fields_keeps (d cfg : dict) (url : string) :
  dict_get d "config" = Some (PDict cfg) ->
  dict_get cfg "connection.url" = Some (PStr url) ->
  (exists d', jdbc_url_fields (PDict d) = Ret (PDict d') /\
              forall k, Spec.among Spec.technology_keys k = false ->
                        dict_get d' k = dict_get d k) \/
  jdbc_url_fields (PDict d) = Exc IndexError.
Proof.
  intros Hc Hurl. unfold jdbc_url_fields.
  rewrite (config_item_dict d cfg _ Hc), Hurl. cbn [obind py_in py_split set_item].
  repeat match goal with
         | |- context [if contains ?n url then _ else _] =>
             destruct (contains n url); cbn [obind set_item py_split]
         end;
    repeat index_cases;
    first [ right; reflexivity
          | left; eexists; split; [reflexivity | solve_keeps] ].
Qed.

Lemma tables_topics_subjects_keeps (d : dict) (c : list (string * string)) (x : pyval) :
  dict_get d "config" = Some (PDict (Spec.str_dict c)) ->
  tables_topics_subjects (PDict d) = Ret x ->
  exists d', x = PDict d' /\
             forall k, Spec.among Spec.technology_keys k = false ->
                       dict_get d' k = dict_get d k.
Proof.
  intros Hc. pose proof (tables_topics_subjects_str d c Hc) as Hstr.
  destruct (dict_get (Spec.str_dict c) "topic.prefix") as [p|] eqn:Hp;
    [|rewrite Hstr; discriminate].
  destruct (str_dict_get _ _ _ Hp) as [prefix ->]. clear Hstr.
  destruct (dict_get (Spec.str_dict c) "table.whitelist") as [wl|] eqn:Hwl.
  - destruct (str_dict_get _ _ _ Hwl) as [whitelist ->].
    rewrite (proj1 (tables_topics_subjects_whitelist d _ whitelist prefix Hc Hwl Hp)).
    intros [= <-]. eexists. split; [reflexivity | solve_keeps].
  - rewrite (tables_topics_subjects_query d _ prefix Hc Hwl Hp).
    intros [= <-]. eexists. split; [reflexivity | solve_keeps].
Qed.

Lemma technology_keeps (d : dict) (c : list (string * string)) (x : pyval) :
  dict_get d "config" = Some (PDict (Spec.str_dict c)) ->
  technology (PDict d) = Ret x ->
  exists d', x = PDict d' /\
             forall k, Spec.among Spec.technology_keys k = false ->
                       dict_get d' k = dict_get d k.
Proof.
  intros Hc.
  destruct (dict_get (Spec.str_dict c) "connector.class") as [v|] eqn:Hcls.
  2:{ unfold technology. rewrite (config_item_dict d _ _ Hc), Hcls. discriminate. }
  destruct (str_dict_get _ _ _ Hcls) as [class ->].
  destruct (String.eqb class JdbcSourceConnector) eqn:Hj.
  - apply String.eqb_eq in Hj. subst class.
    rewrite (technology_jdbc_source d _ Hc Hcls).
    assert (Hc2 : dict_get (dict_set d "class" (PStr "JDBC")) "config"
                  = Some (PDict (Spec.str_dict c))) by (dict_lookup; exact Hc).
    destruct (dict_get (Spec.str_dict c) "connection.url") as [u|] eqn:Hurl.
    2:{ unfold jdbc_url_fields.
        rewrite (config_item_dict _ _ "connection.url" Hc2), Hurl. discriminate. }
    destruct (str_dict_get _ _ _ Hurl) as [url ->].
    destruct (jdbc_url_fields_keeps _ _ url Hc2 Hurl) as [(d2 & -> & Hk2)| ->];
      [|discriminate].
    cbn [obind]. intros Ht.
    assert (Hc3 : dict_get d2 "config" = Some (PDict (Spec.str_dict c)))
      by (rewrite Hk2 by reflexivity; exact Hc2).
    destruct (tables_topics_subjects_keeps d2 c x Hc3 Ht) as (d3 & -> & Hk3).
    exists d3. split; [reflexivity|].
    intros k Hk. rewrite Hk3, Hk2 by assumption. revert k Hk. solve_keeps.
  - rewrite (technology_other_class d _ class Hc Hcls) by (now apply String.eqb_neq).
    intros [= <-]. eexists. split; [reflexivity|].
    destruct (Spec.known_technology class); solve_keeps.
Qed.

(** On a configuration of strings, what [get_connector_info] returns
    after its two fetches. *)
Lemma get_connector_info_returns
    (server : Server) (fuel : nat) (self : KafkaConnectManager) (id : string)
    (w w' : World) (d : dict) (state : pyval) (c : list (string * string)) (x : pyval) :
  Spec.fetched server self id w d state ->
  dict_get d "config" = Some (PDict (Spec.str_dict c)) ->
  get_connector_info server (S fuel) self id w = (Ret x, w') ->
  exists info class,
    x = PDict info /\
    dict_get (Spec.str_dict c) "connector.class" = Some (PStr class) /\
    dict_get info "state" = Some state /\
    dict_get info "type" = Some (PStr (Spec.type_of class)) /\
    dict_get info "vendor" = Some (PStr (Spec.vendor_of class)) /\
    forall k, Spec.among Spec.assigned_keys k = false -> dict_get info k = dict_get d k.
Proof.
  intros Hf Hc.
  rewrite (get_connector_info_enriches _ _ _ _ _ _ _ Hf).
  set (d0 := dict_set (dict_set d "vendor" (PStr "Unknown")) "state" state).
  assert (Hc0 : dict_get d0 "config" = Some (PDict (Spec.str_dict c)))
    by (unfold d0; rewrite enrich_input_frame by reflexivity; exact Hc).
  destruct (dict_get (Spec.str_dict c) "connector.class") as [v|] eqn:Hcls.
  2:{ rewrite (enrich_without_class d0 _ Hc0 Hcls). discriminate. }
  destruct (str_dict_get _ _ _ Hcls) as [class ->].
  unfold enrich. rewrite (type_and_vendor_str d0 _ class Hc0 Hcls). cbn [obind].
  intros [= Ht _].
  match type of Ht with technology (PDict ?t) = _ => set (d1 := t) in * end.
  assert (Hc1 : dict_get d1 "config" = Some (PDict (Spec.str_dict c)))
    by (unfold d1; destruct (contains "confluent" class); dict_lookup; exact Hc0).
  destruct (technology_keeps d1 c x Hc1 Ht) as (info & -> & Hk).
  exists info, class. split; [reflexivity|]. split; [reflexivity|].
  repeat split.
  - rewrite Hk by reflexivity. unfold d1, d0.
    destruct (contains "confluent" class); now dict_lookup.
  - rewrite Hk by reflexivity. unfold d1.
    destruct (contains "confluent" class); now dict_lookup.
  - rewrite Hk by reflexivity. unfold d1, d0, Spec.vendor_of.
    destruct (contains "confluent" class); now dict_lookup.
  - intros k Hka. rewrite Hk.
    + unfold d1, d0. revert k Hka.
      destruct (contains "confluent" class); solve_keeps.
    + revert k Hka. clear. intros k Hk.
      cbn [Spec.among Spec.assigned_keys Spec.technology_keys existsb] in *.
      repeat (apply orb_false_elim in Hk; let H := fresh "H" in destruct Hk as [H Hk]).
      repeat match goal with H : _ = false |- _ => rewrite H; clear H end.
      reflexivity.
Qed.

(** X10: on a configuration of strings, whenever [get_connector_info]
    returns, the result is a dictionary whose "state" is the state that
    the status request gave, whose "type" is "source" if the class name
    contains "Source", else "sink" if it contains "Sink", else
    "undetermined", and whose "vendor" is "Confluent" if the class name
    contains "confluent" and "Unknown" otherwise. *)
Theorem get_connector_info_classifies
    (server : Server) (fuel : nat) (self : KafkaConnectManager) (id : string)
    (w w' : World) (d : dict) (state : pyval) (c : list (string * string)) (x : pyval) :
  Spec.fetched server self id w d state ->
  dict_get d "config" = Some (PDict (Spec.str_dict c)) ->
  get_connector_info server (S fuel) self id w = (Ret x, w') ->
  exists class,
    dict_get (Spec.str_dict c) "connector.class" = Some (PStr class) /\
    get_item x "state" = Ret state /\
    get_item x "type"
    = Ret (PStr (if contains "Source" class then "source"
                 else if contains "Sink" class then "sink"
                 else "undetermined")) /\
    get_item x "vendor"
    = Ret (PStr (if contains "confluent" class then "Confluent" else "Unknown")).
Proof.
  intros Hf Hc Hr.
  destruct (get_connector_info_returns _ _ _ _ _ _ _ _ _ _ Hf Hc Hr)
    as (info & class & -> & Hcls & Hst & Hty & Hve & _).
  exists class. cbn [get_item]. rewrite Hst, Hty, Hve. auto.
Qed.

Lemma get_connector_info_classifies_witness :
  exists class,
    dict_get (Spec.str_dict Samples.s3_sink) "connector.class" = Some (PStr class) /\
    get_item (Samples.returned
                (fst (get_connector_info
                        (Samples.scripted [Samples.ok (Samples.connector "s" Samples.s3_sink);
                                           Samples.ok (Samples.running "s")])
                        1 Samples.connect "s" []))) "state" = Ret (PStr "RUNNING") /\
    get_item (Samples.returned
                (fst (get_connector_info
                        (Samples.scripted [Samples.ok (Samples.connector "s" Samples.s3_sink);
                                           Samples.ok (Samples.running "s")])
                        1 Samples.connect "s" []))) "type"
    = Ret (PStr (if contains "Source" class then "source"
                 else if contains "Sink" class then "sink"
                 else "undetermined")) /\
    get_item (Samples.returned
                (fst (get_connector_info
                        (Samples.scripted [Samples.ok (Samples.connector "s" Samples.s3_sink);
                                           Samples.ok (Samples.running "s")])
                        1 Samples.connect "s" []))) "vendor"
    = Ret (PStr (if contains "confluent" class then "Confluent" else "Unknown")).
Proof.
  refine (get_connector_info_classifies
            (Samples.scripted [Samples.ok (Samples.connector "s" Samples.s3_sink);
                               Samples.ok (Samples.running "s")])
            0 Samples.connect "s" []
            (snd (get_connector_info
                    (Samples.scripted [Samples.ok (Samples.connector "s" Samples.s3_sink);
                                       Samples.ok (Samples.running "s")])
                    1 Samples.connect "s" []))
            [("name", PStr "s");
             ("config", PDict (Spec.str_dict Samples.s3_sink));
             ("tasks", PList []);
             ("type", PStr "source")]
            (PStr "RUNNING") Samples.s3_sink _ _ _ _).
  - split; [discriminate|].
    exists {| status_code := 200; body := Some (Samples.connector "s" Samples.s3_sink) |},
           {| status_code := 200; body := Some (Samples.running "s") |},
           (Samples.running "s").
    repeat split; reflexivity.
  - reflexivity.
  - vm_compute. reflexivity.
Defined.

(** X11: on a configuration of strings, whenever [get_connector_info]
    returns, every entry of the fetched payload under a key that the
    method does not assign, "name" and "config" among them, is in the
    result unchanged, and a key that was absent stays absent. *)
Theorem get_connector_info_keeps_other_entries
    (server : Server) (fuel : nat) (self : KafkaConnectManager) (id : string)
    (w w' : World) (d : dict) (state : pyval) (c : list (string * string)) (x : pyval) :
  Spec.fetched server self id w d state ->
  dict_get d "config" = Some (PDict (Spec.str_dict c)) ->
  get_connector_info server (S fuel) self id w = (Ret x, w') ->
  exists info,
    x = PDict info /\
    dict_get info "config" = dict_get d "config" /\
    dict_get info "name" = dict_get d "name" /\
    forall k, Spec.among Spec.assigned_keys k = false -> dict_get info k = dict_get d k.
Proof.
  intros Hf Hc Hr.
  destruct (get_connector_info_returns _ _ _ _ _ _ _ _ _ _ Hf Hc Hr)
    as (info & class & -> & _ & _ & _ & _ & Hk).
  exists info. split; [reflexivity|].
  split; [apply Hk; reflexivity|]. split; [apply Hk; reflexivity | exact Hk].
Qed.

Lemma get_connector_info_keeps_other_entries_witness :
  exists info,
    Samples.returned
      (fst (get_connector_info
              (Samples.scripted [Samples.ok (Samples.connector "x" Samples.mysql_whitelist);
                                 Samples.ok (Samples.running "x")])
              1 Samples.connect "x" [])) = PDict info /\
    dict_get info "config" = Some (PDict (Spec.str_dict Samples.mysql_whitelist)) /\
    dict_get info "name" = Some (PStr "x") /\
    forall k, Spec.among Spec.assigned_keys k = false ->
              dict_get info k
              = dict_get [("name", PStr "x");
                          ("config", PDict (Spec.str_dict Samples.mysql_whitelist));
                          ("tasks", PList []);
                          ("type", PStr "source")] k.
Proof.
  refine (get_connector_info_keeps_other_entries
            (Samples.scripted [Samples.ok (Samples.connector "x" Samples.mysql_whitelist);
                               Samples.ok (Samples.running "x")])
            0 Samples.connect "x" []
            (snd (get_connector_info
                    (Samples.scripted [Samples.ok (Samples.connector "x" Samples.mysql_whitelist);
                                       Samples.ok (Samples.running "x")])
                    1 Samples.connect "x" []))
            [("name", PStr "x");
             ("config", PDict (Spec.str_dict Samples.mysql_whitelist));
             ("tasks", PList []);
             ("type", PStr "source")]
            (PStr "RUNNING") Samples.mysql_whitelist _ _ _ _).
  - split; [discriminate|].
    exists {| status_code := 200;
              body := Some (Samples.connector "x" Samples.mysql_whitelist) |},
           {| status_code := 200; body := Some (Samples.running "x") |},
           (Samples.running "x").
    repeat split; reflexivity.
  - reflexivity.
  - vm_compute. reflexivity.
Defined.

End EnrichExtras.

(** * Further properties of the JDBC URL decomposition *)

Module UrlExtras.
Import Py Http ConnectManager PyFacts HttpFacts ConnectFacts EnrichExtras.
Local Open Scope py_scope.

(** *** [split] and indexing *)

Lemma append_empty (s : string) : (s ++ "")%string = s.
Proof. induction s as [|c s IH]; [reflexivity|]. cbn [append]. now rewrite IH. Qed.

(** Splitting around a separator splits both sides. *)
Lemma split_app_sep (c : ascii) (a b : string) :
  split c (a ++ String c b)%string = split c a ++ split c b.
Proof.
  induction a as [|x a IH]; cbn [append split].
  - now rewrite Ascii.eqb_refl.
  - destruct (Ascii.eqb x c).
    + now rewrite IH.
    + rewrite IH. destruct (split c a) as [|q qs] eqn:E; [|reflexivity].
      now destruct (split_nonempty c a).
Qed.

Lemma has_char_cons (c x : ascii) (s : string) :
  Spec.has_char c (String x s) = Ascii.eqb c x || Spec.has_char c s.
Proof. reflexivity. Qed.

(** A string without the separator is its own single piece. *)
Lemma split_lacks (c : ascii) (s : string) :
  Spec.has_char c s = false -> split c s = [s].
Proof.
  induction s as [|x s IH]; [reflexivity|].
  rewrite has_char_cons. intros H. apply orb_false_elim in H as [Hx Hs].
  cbn [split]. rewrite Ascii.eqb_sym, Hx. now rewrite (IH Hs).
Qed.

(** A start without the separator joins the first piece of what follows. *)
Lemma split_app_lacks (c : ascii) (a b : string) :
  Spec.has_char c a = false ->
  split c (a ++ b)%string
  = match split c b with
    | piece :: pieces => (a ++ piece)%string :: pieces
    | [] => [a]
    end.
Proof.
  induction a as [|x a IH]; cbn [append].
  - intros _. destruct (split c b) eqn:E; [now destruct (split_nonempty c b)|reflexivity].
  - rewrite has_char_cons. intros H. apply orb_false_elim in H as [Hx Ha].
    cbn [split]. rewrite Ascii.eqb_sym, Hx, (IH Ha).
    destruct (split c b); reflexivity.
Qed.

Lemma py_index_out_of_range {A} (l : list A) (i : Z) :
  (0 <= i)%Z -> (Z.of_nat (length l) <= i)%Z -> py_index l i = Exc IndexError.
Proof.
  intros H0 Hn. unfold py_index.
  destruct (Z.ltb_spec i 0); [lia|].
  destruct (Z.ltb_spec i 0); [lia|].
  destruct (nth_error l (Z.to_nat i)) eqn:E; [|reflexivity].
  assert (Z.to_nat i < length l)%nat by (apply nth_error_Some; congruence). lia.
Qed.

Lemma py_index_last {A} (l : list A) (x : A) :
  py_index (l ++ [x]) (-1) = Ret x.
Proof.
  unfold py_index. rewrite length_app. cbn [length Z.ltb Z.compare].
  replace (-1 + Z.of_nat (length l + 1))%Z with (Z.of_nat (length l)) by lia.
  destruct (Z.ltb_spec (Z.of_nat (length l)) 0); [lia|].
  rewrite Nat2Z.id, nth_error_app2, Nat.sub_diag by lia. reflexivity.
Qed.

Lemma py_index_last_but_one {A} (l : list A) (x y : A) :
  py_index (l ++ [x; y]) (-2) = Ret x.
Proof.
  unfold py_index. rewrite length_app. cbn [length Z.ltb Z.compare].
  replace (-2 + Z.of_nat (length l + 2))%Z with (Z.of_nat (length l)) by lia.
  destruct (Z.ltb_spec (Z.of_nat (length l)) 0); [lia|].
  rewrite Nat2Z.id, nth_error_app2, Nat.sub_diag by lia. reflexivity.
Qed.

(** A first character that is not the separator starts the first piece. *)
Lemma split_cons_other (c x : ascii) (s : string) :
  Ascii.eqb x c = false ->
  exists piece pieces,
    split c (String x s) = String x piece :: pieces /\ split c s = piece :: pieces.
Proof.
  intros Hx. cbn [split]. rewrite Hx.
  destruct (split c s) as [|p ps] eqn:E; [now destruct (split_nonempty c s)|eauto].
Qed.

(** The first piece of a string that starts with [a], where [a] has no
    separator and is followed by nothing or by the separator. *)
Lemma first_piece (c : ascii) (a rest : string) :
  Spec.has_char c a = false ->
  rest = "" \/ (exists q, rest = String c q) ->
  py_index (split c (a ++ rest)%string) 0 = Ret a.
Proof.
  intros Ha [->|[q ->]].
  - now rewrite append_empty, (split_lacks _ _ Ha).
  - now rewrite split_app_sep, (split_lacks _ _ Ha).
Qed.

(** *** The five dialects *)

(** X12: a MySQL URL "jdbc:mysql://<location>/<database>", alone or
    followed by "?" and parameters, where the location has no "/" and the
    database no "/" and no "?", is decomposed into "jdbc_type" "mysql",
    that location and that database, the parameters being dropped. *)
Theorem jdbc_url_fields_mysql (d cfg : dict) (location database rest : string) :
  dict_get d "config" = Some (PDict cfg) ->
  dict_get cfg "connection.url"
    = Some (PStr ("jdbc:mysql://" ++ location ++ "/" ++ database ++ rest)) ->
  Spec.has_char "/" location = false ->
  Spec.has_char "/" database = false ->
  Spec.has_char "?" database = false ->
  rest = "" \/ (exists parameters, rest = String "?" parameters) ->
  jdbc_url_fields (PDict d)
  = Ret (PDict (dict_set
                  (dict_set (dict_set d "jdbc_type" (PStr "mysql"))
                            "jdbc_location" (PStr location))
                  "jdbc_database" (PStr database))).
Proof.
  intros Hc Hurl Hl Hd1 Hd2 Hrest. unfold jdbc_url_fields.
  rewrite (config_item_dict d cfg _ Hc), Hurl. cbn [obind py_in].
  change (contains "mysql" ("jdbc:mysql://" ++ location ++ "/" ++ database ++ rest)) with true.
  cbv iota. cbn [obind set_item py_split].
  assert (Hs : split "/" ("jdbc:mysql://" ++ location ++ "/" ++ database ++ rest)
               = "jdbc:mysql:" :: "" :: location :: split "/" (database ++ rest)).
  { change ("jdbc:mysql://" ++ location ++ "/" ++ database ++ rest)%string
      with ("jdbc:mysql:" ++ String "/" ("" ++ String "/"
              (location ++ String "/" (database ++ rest))))%string.
    rewrite !split_app_sep, (split_lacks _ _ Hl). reflexivity. }
  rewrite Hs.
  change (py_index ("jdbc:mysql:" :: "" :: location :: split "/" (database ++ rest)) 2)
    with (@Ret string location).
  cbn [obind set_item].
  change (py_index ("jdbc:mysql:" :: "" :: location :: split "/" (database ++ rest)) 3)
    with (py_index (split "/" (database ++ rest)) 0).
  rewrite (split_app_lacks _ _ _ Hd1).
  destruct (split "/" rest) as [|piece pieces] eqn:E;
    [now destruct (split_nonempty "/" rest)|].
  change (py_index ((database ++ piece)%string :: pieces) 0)
    with (@Ret string (database ++ piece)%string).
  cbn [obind].
  rewrite (first_piece "?" database piece Hd2); [reflexivity|].
  destruct Hrest as [->|[q ->]].
  - left. now injection E as <- _.
  - right. cbn [split] in E. change (Ascii.eqb "?" "/") with false in E.
    destruct (split "/" q) as [|p ps]; injection E as <- _; eauto.
Qed.

Lemma jdbc_url_fields_mysql_witness :
  jdbc_url_fields
    (PDict [("config",
             PDict [("connection.url", PStr "jdbc:mysql://db1:3306/shop?useSSL=false")])])
  = Ret (PDict [("config",
                 PDict [("connection.url", PStr "jdbc:mysql://db1:3306/shop?useSSL=false")]);
                ("jdbc_type", PStr "mysql");
                ("jdbc_location", PStr "db1:3306");
                ("jdbc_database", PStr "shop")]).
Proof.
  refine (jdbc_url_fields_mysql
            [("config",
              PDict [("connection.url", PStr "jdbc:mysql://db1:3306/shop?useSSL=false")])]
            [("connection.url", PStr "jdbc:mysql://db1:3306/shop?useSSL=false")]
            "db1:3306" "shop" "?useSSL=false" _ _ _ _ _ _).
  - reflexivity.
  - reflexivity.
  - reflexivity.
  - reflexivity.
  - reflexivity.
  - right. exists "useSSL=false". reflexivity.
Defined.

(** X13: a PostgreSQL URL "jdbc:postgresql://<location>/<database>" in
    which neither "mysql" nor "oracle" occurs, with no "/" in the location
    or the database, is decomposed into "jdbc_type" "postgresql", that
    location and that database. *)
Theorem jdbc_url_fields_postgresql (d cfg : dict) (location database : string) :
  dict_get d "config" = Some (PDict cfg) ->
  dict_get cfg "connection.url"
    = Some (PStr ("jdbc:postgresql://" ++ location ++ "/" ++ database)) ->
  contains "mysql" ("jdbc:postgresql://" ++ location ++ "/" ++ database) = false ->
  contains "oracle" ("jdbc:postgresql://" ++ location ++ "/" ++ database) = false ->
  Spec.has_char "/" location = false ->
  Spec.has_char "/" database = false ->
  jdbc_url_fields (PDict d)
  = Ret (PDict (dict_set
                  (dict_set (dict_set d "jdbc_type" (PStr "postgresql"))
                            "jdbc_location" (PStr location))
                  "jdbc_database" (PStr database))).
Proof.
  intros Hc Hurl Hm Ho Hl Hd. unfold jdbc_url_fields.
  rewrite (config_item_dict d cfg _ Hc), Hurl. cbn [obind py_in].
  rewrite Hm, Ho.
  change (contains "postgresql" ("jdbc:postgresql://" ++ location ++ "/" ++ database))
    with true.
  cbv iota. cbn [obind set_item py_split].
  assert (Hs : split "/" ("jdbc:postgresql://" ++ location ++ "/" ++ database)
               = ["jdbc:postgresql:"; ""; location; database]).
  { change ("jdbc:postgresql://" ++ location ++ "/" ++ database)%string
      with ("jdbc:postgresql:" ++ String "/" ("" ++ String "/"
              (location ++ String "/" database)))%string.
    rewrite !split_app_sep, (split_lacks _ _ Hl), (split_lacks _ _ Hd). reflexivity. }
  rewrite Hs. reflexivity.
Qed.

Lemma jdbc_url_fields_postgresql_witness :
  jdbc_url_fields
    (PDict [("config", PDict [("connection.url", PStr "jdbc:postgresql://pg:5432/shop")])])
  = Ret (PDict [("config", PDict [("connection.url", PStr "jdbc:postgresql://pg:5432/shop")]);
                ("jdbc_type", PStr "postgresql");
                ("jdbc_location", PStr "pg:5432");
                ("jdbc_database", PStr "shop")]).
Proof.
  refine (jdbc_url_fields_postgresql
            [("config", PDict [("connection.url", PStr "jdbc:postgresql://pg:5432/shop")])]
            [("connection.url", PStr "jdbc:postgresql://pg:5432/shop")]
            "pg:5432" "shop" _ _ _ _ _ _); reflexivity.
Defined.

(** X14: an Oracle URL "jdbc:oracle:thin:@<location>/<sid>" in which
    "mysql" does not occur, with no "@" and no "/" in the location and no
    "/" in the sid, is decomposed into "jdbc_type" "oracle", that location
    and, under "jdbc_sid", that sid. *)
Theorem jdbc_url_fields_oracle (d cfg : dict) (location sid : string) :
  dict_get d "config" = Some (PDict cfg) ->
  dict_get cfg "connection.url"
    = Some (PStr ("jdbc:oracle:thin:@" ++ location ++ "/" ++ sid)) ->
  contains "mysql" ("jdbc:oracle:thin:@" ++ location ++ "/" ++ sid) = false ->
  Spec.has_char "@" location = false ->
  Spec.has_char "/" location = false ->
  Spec.has_char "/" sid = false ->
  jdbc_url_fields (PDict d)
  = Ret (PDict (dict_set
                  (dict_set (dict_set d "jdbc_type" (PStr "oracle"))
                            "jdbc_location" (PStr location))
                  "jdbc_sid" (PStr sid))).
Proof.
  intros Hc Hurl Hm Hl1 Hl2 Hsid. unfold jdbc_url_fields.
  rewrite (config_item_dict d cfg _ Hc), Hurl. cbn [obind py_in].
  rewrite Hm.
  change (contains "oracle" ("jdbc:oracle:thin:@" ++ location ++ "/" ++ sid)) with true.
  cbv iota. cbn [obind set_item py_split].
  assert (Hat : exists piece pieces,
             split "@" ("jdbc:oracle:thin:@" ++ location ++ "/" ++ sid)
             = "jdbc:oracle:thin:" :: (location ++ String "/" piece)%string :: pieces).
  { change ("jdbc:oracle:thin:@" ++ location ++ "/" ++ sid)%string
      with ("jdbc:oracle:thin:" ++ String "@" (location ++ String "/" sid))%string.
    rewrite split_app_sep, (split_app_lacks _ _ _ Hl1).
    change (split "@" "jdbc:oracle:thin:") with ["jdbc:oracle:thin:"].
    destruct (split_cons_other "@" "/" sid eq_refl) as (p & ps & -> & _).
    eexists. eexists. reflexivity. }
  destruct Hat as (piece & pieces & ->).
  change (py_index ("jdbc:oracle:thin:" :: (location ++ String "/" piece)%string :: pieces) 1)
    with (@Ret string (location ++ String "/" piece)%string).
  cbn [obind].
  rewrite (first_piece "/" location (String "/" piece) Hl2) by eauto.
  cbn [obind set_item].
  assert (Hs : split "/" ("jdbc:oracle:thin:@" ++ location ++ "/" ++ sid)
               = [("jdbc:oracle:thin:@" ++ location)%string] ++ [sid]).
  { rewrite (split_app_lacks "/" "jdbc:oracle:thin:@") by reflexivity.
    change (location ++ "/" ++ sid)%string with (location ++ String "/" sid)%string.
    now rewrite split_app_sep, (split_lacks _ _ Hl2), (split_lacks _ _ Hsid). }
  rewrite Hs, py_index_last. reflexivity.
Qed.

Lemma jdbc_url_fields_oracle_witness :
  jdbc_url_fields
    (PDict [("config", PDict [("connection.url", PStr "jdbc:oracle:thin:@ora:1521/ORCL")])])
  = Ret (PDict [("config", PDict [("connection.url", PStr "jdbc:oracle:thin:@ora:1521/ORCL")]);
                ("jdbc_type", PStr "oracle");
                ("jdbc_location", PStr "ora:1521");
                ("jdbc_sid", PStr "ORCL")]).
Proof.
  refine (jdbc_url_fields_oracle
            [("config", PDict [("connection.url", PStr "jdbc:oracle:thin:@ora:1521/ORCL")])]
            [("connection.url", PStr "jdbc:oracle:thin:@ora:1521/ORCL")]
            "ora:1521" "ORCL" _ _ _ _ _ _); reflexivity.
Defined.

(** X15: a SQL Server URL
    "jdbc:sqlserver://<location>;databaseName=<database>" in which none of
    "mysql", "oracle" and "postgresql" occurs, with no ";" and no "/" in
    the location and no ";" and no "=" in the database, is decomposed into
    "jdbc_type" "sqlserver", that location and that database. *)
Theorem jdbc_url_fields_sqlserver (d cfg : dict) (location database : string) :
  dict_get d "config" = Some (PDict cfg) ->
  dict_get cfg "connection.url"
    = Some (PStr ("jdbc:sqlserver://" ++ location ++ ";databaseName=" ++ database)) ->
  contains "mysql" ("jdbc:sqlserver://" ++ location ++ ";databaseName=" ++ database) = false ->
  contains "oracle" ("jdbc:sqlserver://" ++ location ++ ";databaseName=" ++ database) = false ->
  contains "postgresql" ("jdbc:sqlserver://" ++ location ++ ";databaseName=" ++ database)
    = false ->
  Spec.has_char ";" location = false ->
  Spec.has_char "/" location = false ->
  Spec.has_char ";" database = false ->
  Spec.has_char "=" database = false ->
  jdbc_url_fields (PDict d)
  = Ret (PDict (dict_set
                  (dict_set (dict_set d "jdbc_type" (PStr "sqlserver"))
                            "jdbc_location" (PStr location))
                  "jdbc_database" (PStr database))).
Proof.
  intros Hc Hurl Hm Ho Hp Hl1 Hl2 Hd1 Hd2. unfold jdbc_url_fields.
  rewrite (config_item_dict d cfg _ Hc), Hurl. cbn [obind py_in].
  rewrite Hm, Ho, Hp.
  change (contains "sqlserver"
            ("jdbc:sqlserver://" ++ location ++ ";databaseName=" ++ database)) with true.
  cbv iota. cbn [obind set_item py_split].
  assert (Hs : split ";" ("jdbc:sqlserver://" ++ location ++ ";databaseName=" ++ database)
               = [("jdbc:sqlserver://" ++ location)%string;
                  ("databaseName=" ++ database)%string]).
  { rewrite (split_app_lacks ";" "jdbc:sqlserver://") by reflexivity.
    change (location ++ ";databaseName=" ++ database)%string
      with (location ++ String ";" ("databaseName=" ++ database))%string.
    rewrite split_app_sep, (split_lacks _ _ Hl1).
    rewrite (split_app_lacks ";" "databaseName=") by reflexivity.
    now rewrite (split_lacks _ _ Hd1). }
  rewrite Hs.
  change (py_index [("jdbc:sqlserver://" ++ location)%string;
                    ("databaseName=" ++ database)%string] 0)
    with (@Ret string ("jdbc:sqlserver://" ++ location)%string).
  cbn [obind].
  change ("jdbc:sqlserver://" ++ location)%string
    with ("jdbc:sqlserver:" ++ String "/" ("" ++ String "/" location))%string.
  rewrite !split_app_sep, (split_lacks _ _ Hl2).
  change (split "/" "jdbc:sqlserver:" ++ split "/" "" ++ [location])
    with (["jdbc:sqlserver:"; ""] ++ [location]).
  rewrite py_index_last. cbn [obind set_item].
  change (py_index [("jdbc:sqlserver:" ++ String "/" ("" ++ String "/" location))%string;
                    ("databaseName=" ++ database)%string] (-1))
    with (@Ret string ("databaseName=" ++ database)%string).
  cbn [obind].
  change ("databaseName=" ++ database)%string
    with ("databaseName" ++ String "=" database)%string.
  rewrite split_app_sep, (split_lacks _ _ Hd2). reflexivity.
Qed.

Lemma jdbc_url_fields_sqlserver_witness :
  jdbc_url_fields
    (PDict [("config",
             PDict [("connection.url", PStr "jdbc:sqlserver://ms:1433;databaseName=shop")])])
  = Ret (PDict [("config",
                 PDict [("connection.url", PStr "jdbc:sqlserver://ms:1433;databaseName=shop")]);
                ("jdbc_type", PStr "sqlserver");
                ("jdbc_location", PStr "ms:1433");
                ("jdbc_database", PStr "shop")]).
Proof.
  refine (jdbc_url_fields_sqlserver
            [("config",
              PDict [("connection.url", PStr "jdbc:sqlserver://ms:1433;databaseName=shop")])]
            [("connection.url", PStr "jdbc:sqlserver://ms:1433;databaseName=shop")]
            "ms:1433" "shop" _ _ _ _ _ _ _ _ _); reflexivity.
Defined.

(** X16: a MariaDB URL "jdbc:mariadb://<location>/<database>" in which
    none of "mysql", "oracle", "postgresql" and "sqlserver" occurs, with no
    "/" in the location or the database, is decomposed into "jdbc_type"
    "mariadb", that location and that database. *)
Theorem jdbc_url_fields_mariadb (d cfg : dict) (location database : string) :
  dict_get d "config" = Some (PDict cfg) ->
  dict_get cfg "connection.url"
    = Some (PStr ("jdbc:mariadb://" ++ location ++ "/" ++ database)) ->
  contains "mysql" ("jdbc:mariadb://" ++ location ++ "/" ++ database) = false ->
  contains "oracle" ("jdbc:mariadb://" ++ location ++ "/" ++ database) = false ->
  contains "postgresql" ("jdbc:mariadb://" ++ location ++ "/" ++ database) = false ->
  contains "sqlserver" ("jdbc:mariadb://" ++ location ++ "/" ++ database) = false ->
  Spec.has_char "/" location = false ->
  Spec.has_char "/" database = false ->
  jdbc_url_fields (PDict d)
  = Ret (PDict (dict_set
                  (dict_set (dict_set d "jdbc_type" (PStr "mariadb"))
                            "jdbc_location" (PStr location))
                  "jdbc_database" (PStr database))).
Proof.
  intros Hc Hurl Hm Ho Hp Hq Hl Hd. unfold jdbc_url_fields.
  rewrite (config_item_dict d cfg _ Hc), Hurl. cbn [obind py_in].
  rewrite Hm, Ho, Hp, Hq.
  change (contains "mariadb" ("jdbc:mariadb://" ++ location ++ "/" ++ database)) with true.
  cbv iota. cbn [obind set_item py_split].
  assert (Hs : split "/" ("jdbc:mariadb://" ++ location ++ "/" ++ database)
               = ["jdbc:mariadb:"; ""; location; database]).
  { change ("jdbc:mariadb://" ++ location ++ "/" ++ database)%string
      with ("jdbc:mariadb:" ++ String "/" ("" ++ String "/"
              (location ++ String "/" database)))%string.
    rewrite !split_app_sep, (split_lacks _ _ Hl), (split_lacks _ _ Hd). reflexivity. }
  rewrite Hs. reflexivity.
Qed.

Lemma jdbc_url_fields_mariadb_witness :
  jdbc_url_fields
    (PDict [("config", PDict [("connection.url", PStr "jdbc:mariadb://maria:3306/shop")])])
  = Ret (PDict [("config", PDict [("connection.url", PStr "jdbc:mariadb://maria:3306/shop")]);
                ("jdbc_type", PStr "mariadb");
                ("jdbc_location", PStr "maria:3306");
                ("jdbc_database", PStr "shop")]).
Proof.
  refine (jdbc_url_fields_mariadb
            [("config", PDict [("connection.url", PStr "jdbc:mariadb://maria:3306/shop")])]
            [("connection.url", PStr "jdbc:mariadb://maria:3306/shop")]
            "maria:3306" "shop" _ _ _ _ _ _ _ _); reflexivity.
Defined.

(** *** Dialect choice and URLs that are too short *)

(** X17: the dialect is chosen by substring, in the order mysql, oracle,
    postgresql, sqlserver, mariadb: whenever the decomposition succeeds,
    "jdbc_type" is the first of these names that occurs anywhere in the
    URL, and it is left as it was when none occurs. *)
Theorem jdbc_type_is_first_name_in_url (d cfg : dict) (url : string) (x : pyval) :
  dict_get d "config" = Some (PDict cfg) ->
  dict_get cfg "connection.url" = Some (PStr url) ->
  jdbc_url_fields (PDict d) = Ret x ->
  exists d',
    x = PDict d' /\
    dict_get d' "jdbc_type"
    = match Spec.dialect_of url with
      | Some name => Some (PStr name)
      | None => dict_get d "jdbc_type"
      end.
Proof.
  intros Hc Hurl. unfold jdbc_url_fields, Spec.dialect_of.
  rewrite (config_item_dict d cfg _ Hc), Hurl. cbn [obind py_in py_split set_item].
  repeat match goal with
         | |- context [if contains ?n url then _ else _] =>
             destruct (contains n url); cbn [obind set_item py_split]
         end;
    repeat index_cases;
    try discriminate;
    intros [= <-]; eexists; (split; [reflexivity | now dict_lookup]).
Qed.

Lemma jdbc_type_is_first_name_in_url_witness :
  exists d',
    Samples.returned
      (jdbc_url_fields
         (PDict [("config",
                  PDict [("connection.url", PStr "jdbc:postgresql://pg:5432/mysql_copy")])]))
    = PDict d' /\
    dict_get d' "jdbc_type" = Some (PStr "mysql").
Proof.
  refine (jdbc_type_is_first_name_in_url
            [("config",
              PDict [("connection.url", PStr "jdbc:postgresql://pg:5432/mysql_copy")])]
            [("connection.url", PStr "jdbc:postgresql://pg:5432/mysql_copy")]
            "jdbc:postgresql://pg:5432/mysql_copy" _ _ _ _).
  - reflexivity.
  - reflexivity.
  - vm_compute. reflexivity.
Defined.

(** X18: for a JDBC source whose URL contains "mysql" and has fewer than
    three "/", so at most three pieces between them, as a URL that names
    no database has, [get_connector_info] raises IndexError once its two
    fetches have succeeded. *)
Theorem get_connector_info_short_mysql_url
    (server : Server) (fuel : nat) (self : KafkaConnectManager) (id : string)
    (w : World) (d cfg : dict) (state : pyval) (url : string) :
  Spec.fetched server self id w d state ->
  dict_get d "config" = Some (PDict cfg) ->
  dict_get cfg "connector.class" = Some (PStr JdbcSourceConnector) ->
  dict_get cfg "connection.url" = Some (PStr url) ->
  contains "mysql" url = true ->
  (length (split "/" url) <= 3)%nat ->
  fst (get_connector_info server (S fuel) self id w) = Exc IndexError.
Proof.
  intros Hf Hc Hcls Hurl Hm Hlen.
  rewrite (get_connector_info_enriches _ _ _ _ _ _ _ Hf). cbn [fst].
  set (d0 := dict_set (dict_set d "vendor" (PStr "Unknown")) "state" state).
  assert (Hc0 : dict_get d0 "config" = Some (PDict cfg))
    by (unfold d0; rewrite enrich_input_frame by reflexivity; exact Hc).
  destruct (type_and_vendor_frame d0 cfg _ Hc0 Hcls) as (d1 & Htv & Hframe).
  assert (Hc1 : dict_get d1 "config" = Some (PDict cfg))
    by (rewrite Hframe by reflexivity; exact Hc0).
  unfold enrich. rewrite Htv. cbn [obind].
  rewrite (technology_jdbc_source d1 cfg Hc1 Hcls).
  unfold jdbc_url_fields.
  rewrite (config_item_dict _ cfg "connection.url") by (dict_lookup; exact Hc1).
  rewrite Hurl. cbn [obind py_in]. rewrite Hm. cbn [obind set_item py_split].
  destruct (py_index_cases (split "/" url) 2) as [[location ->]| ->]; [|reflexivity].
  cbn [obind set_item].
  rewrite (py_index_out_of_range (split "/" url) 3) by lia.
  reflexivity.
Qed.

Lemma get_connector_info_short_mysql_url_witness :
  fst (get_connector_info
         (Samples.scripted [Samples.ok (Samples.connector "x" Samples.mysql_no_database);
                            Samples.ok (Samples.running "x")])
         1 Samples.connect "x" []) = Exc IndexError.
Proof.
  refine (get_connector_info_short_mysql_url
            (Samples.scripted [Samples.ok (Samples.connector "x" Samples.mysql_no_database);
                               Samples.ok (Samples.running "x")])
            0 Samples.connect "x" []
            [("name", PStr "x");
             ("config", PDict (Spec.str_dict Samples.mysql_no_database));
             ("tasks", PList []);
             ("type", PStr "source")]
            (Spec.str_dict Samples.mysql_no_database) (PStr "RUNNING")
            "jdbc:mysql://host1:3306" _ _ _ _ _ _).
  - split; [discriminate|].
    exists {| status_code := 200;
              body := Some (Samples.connector "x" Samples.mysql_no_database) |},
           {| status_code := 200; body := Some (Samples.running "x") |},
           (Samples.running "x").
    repeat split; reflexivity.
  - reflexivity.
  - reflexivity.
  - reflexivity.
  - reflexivity.
  - cbn. lia.
Defined.

End UrlExtras.

(** * Further properties of [load_connector] *)

Module LoadExtras.
Import Py Http ConnectManager PyFacts HttpFacts.
Local Open Scope py_scope.
Local Open Scope http_scope.

(** X19: [load_connector] sends nothing and raises ValueError, or
    TypeError for a configuration that has no length, unless the
    configuration is a non-empty string that [json.loads] decodes or a
    non-empty dictionary. *)
Theorem load_connector_validates_first
    (server : Server) (json_loads : string -> option pyval)
    (self : KafkaConnectManager) (id : string) (config : pyval) (w : World) :
  (forall s, config = PStr s -> s = "" \/ json_loads s = None) ->
  (forall d, config = PDict d -> d = []) ->
  exists e,
    load_connector server json_loads self id config w = (Exc e, w) /\
    (e = ValueError \/ e = TypeError).
Proof.
  intros Hstr Hdict. unfold load_connector.
  destruct (String.length id =? 0)%nat; [exists ValueError; auto|].
  destruct config as [| b | n | s | l | d]; unfold bind, lift; cbn [py_len].
  - exists TypeError; auto.
  - exists TypeError; auto.
  - exists TypeError; auto.
  - destruct (Hstr s eq_refl) as [->|Hl]; [exists ValueError; auto|].
    destruct (Z.of_nat (String.length s) =? 0)%Z; [exists ValueError; auto|].
    rewrite Hl. exists ValueError; auto.
  - destruct (Z.of_nat (length l) =? 0)%Z; exists ValueError; auto.
  - rewrite (Hdict d eq_refl). exists ValueError; auto.
Qed.

Lemma load_connector_validates_first_witness :
  exists e,
    load_connector (Samples.scripted []) Samples.no_loads Samples.connect "x"
      (PStr "{not json") []
    = (Exc e, []) /\
    (e = ValueError \/ e = TypeError).
Proof.
  refine (load_connector_validates_first
            (Samples.scripted []) Samples.no_loads Samples.connect "x"
            (PStr "{not json") [] _ _).
  - intros s _. right. reflexivity.
  - intros d H. discriminate H.
Defined.

(** What [load_connector] does with a configuration that decodes to
    [decoded]: one POST of the name and the decoded configuration. *)
Lemma load_connector_sends
    (server : Server) (json_loads : string -> option pyval)
    (self : KafkaConnectManager) (id : string) (config decoded : pyval) (w : World) :
  id <> "" ->
  (exists s, config = PStr s /\ s <> "" /\ json_loads s = Some decoded) \/
  (exists d, config = PDict d /\ d <> [] /\ decoded = config) ->
  let rq := request self POST "/connectors"
              (Some (PDict [("name", PStr id); ("config", decoded)])) in
  load_connector server json_loads self id config w
  = (match server (requests_sent w) rq with
     | Unreachable => Exc NoConnectServerAvailable
     | Replied r =>
         if ((400 <=? status_code r) && (status_code r <? 600))%Z
         then Exc HTTPError else Ret true
     end,
     w ++ [Sent rq]).
Proof.
  intros Hid Hconfig rq. unfold load_connector.
  destruct id as [|c id']; [congruence|]. cbn [String.length Nat.eqb].
  assert (Hgo : forall k : pyval -> M bool,
             (n <~ lift (py_len config) ;;
              if (n =? 0)%Z then raise ValueError else
              config' <~ match config with
                         | PStr s => match json_loads s with
                                     | Some v => ret v
                                     | None => raise ValueError
                                     end
                         | PDict _ => ret config
                         | _ => raise ValueError
                         end ;;
              k config') w = k decoded w).
  { intros k. destruct Hconfig as [(s & -> & Hs & Hl)|(d & -> & Hd & ->)];
      unfold bind, lift; cbn [py_len].
    - destruct s as [|x s]; [congruence|]. cbn [String.length].
      rewrite Hl. reflexivity.
    - destruct d as [|x d]; [congruence|]. reflexivity. }
  rewrite Hgo. unfold bind, attempt. fold rq.
  destruct (server (requests_sent w) rq) as [|r]; [reflexivity|].
  unfold raise_for_status.
  now destruct ((400 <=? status_code r) && (status_code r <? 600))%Z.
Qed.

(** X20: a configuration given as a JSON string and the dictionary that
    the string decodes to are posted alike: [load_connector] sends the same
    single request and ends the same way for both. *)
Theorem load_connector_string_or_dict
    (server : Server) (json_loads : string -> option pyval)
    (self : KafkaConnectManager) (id : string) (s : string) (d : dict) (w : World) :
  id <> "" -> s <> "" -> d <> [] ->
  json_loads s = Some (PDict d) ->
  load_connector server json_loads self id (PStr s) w
  = load_connector server json_loads self id (PDict d) w.
Proof.
  intros Hid Hs Hd Hl.
  rewrite (load_connector_sends server json_loads self id (PStr s) (PDict d) w Hid)
    by (left; eauto).
  rewrite (load_connector_sends server json_loads self id (PDict d) (PDict d) w Hid)
    by (right; eauto).
  reflexivity.
Qed.

Lemma load_connector_string_or_dict_witness :
  load_connector (Samples.scripted [Samples.status 201]) Samples.loads_tasks_max
    Samples.connect "x" (PStr Samples.tasks_max_json) []
  = load_connector (Samples.scripted [Samples.status 201]) Samples.loads_tasks_max
      Samples.connect "x" (PDict [("tasks.max", PStr "1")]) [].
Proof.
  apply load_connector_string_or_dict.
  - discriminate.
  - discriminate.
  - discriminate.
  - reflexivity.
Defined.

(** X21: for a non-empty name and a configuration that decodes,
    [load_connector] sends exactly one request, the POST of
    {"name": name, "config": configuration} to /connectors; it raises
    NoConnectServerAvailable when the server cannot be reached, HTTPError
    on every status from 400 to 599, a 404 or 409 like any other, and
    returns [True] otherwise. *)
Theorem load_connector_posts_once
    (server : Server) (json_loads : string -> option pyval)
    (self : KafkaConnectManager) (id : string) (d : dict) (w : World) :
  id <> "" -> d <> [] ->
  let rq := request self POST "/connectors"
              (Some (PDict [("name", PStr id); ("config", PDict d)])) in
  snd (load_connector server json_loads self id (PDict d) w) = w ++ [Sent rq] /\
  (server (requests_sent w) rq = Unreachable ->
   fst (load_connector server json_loads self id (PDict d) w)
   = Exc NoConnectServerAvailable) /\
  (forall r, server (requests_sent w) rq = Replied r ->
   fst (load_connector server json_loads self id (PDict d) w)
   = if ((400 <=? status_code r) && (status_code r <? 600))%Z
     then Exc HTTPError else Ret true).
Proof.
  intros Hid Hd rq.
  rewrite (load_connector_sends server json_loads self id (PDict d) (PDict d) w Hid)
    by (right; eauto).
  fold rq. cbn [fst snd]. repeat split.
  - now intros ->.
  - now intros r ->.
Qed.

Lemma load_connector_posts_once_witness :
  load_connector (Samples.scripted [Samples.status 409]) Samples.no_loads
    Samples.connect "x" (PDict [("tasks.max", PStr "1")]) []
  = (Exc HTTPError,
     [Sent (request Samples.connect POST "/connectors"
              (Some (PDict [("name", PStr "x");
                            ("config", PDict [("tasks.max", PStr "1")])])))]).
Proof.
  pose proof (load_connector_posts_once
                (Samples.scripted [Samples.status 409]) Samples.no_loads
                Samples.connect "x" [("tasks.max", PStr "1")] []
                ltac:(discriminate) ltac:(discriminate)) as (Hsnd & _ & Hfst).
  specialize (Hfst {| status_code := 409; body := None |} eq_refl).
  rewrite (surjective_pairing (load_connector _ _ _ _ _ _)).
  now rewrite Hsnd, Hfst.
Defined.

End LoadExtras.

(** * Further properties of schema_registry_manager.py *)

Module RegistryExtras.
Import Py Http SchemaRegistryManager PyFacts HttpFacts RegistryFacts.
Local Open Scope py_scope.
Local Open Scope http_scope.

(** The end of every method after its request [rq] has been sent. *)
Lemma exchange (server : Server) (rq : Request) (w : World) (k : Response -> outcome pyval) :
  (t <~ attempt server rq ;; r <~ checked t ;; lift (k r)) w
  = (match server (requests_sent w) rq with
     | Unreachable => Exc RequestsConnectionError
     | Replied r =>
         if ((400 <=? status_code r) && (status_code r <? 600))%Z
         then Exc HTTPError else k r
     end,
     w ++ [Sent rq]).
Proof.
  unfold bind, attempt, checked, raise_for_status.
  destruct (server (requests_sent w) rq) as [|r]; [reflexivity|].
  now destruct ((400 <=? status_code r) && (status_code r <? 600))%Z.
Qed.

(** *** The methods of one request *)

(** X22: when the registry cannot be reached, the constructor,
    [get_config], [get_subjects], [get_subject_versions] and
    [delete_subject] raise the ConnectionError of [requests] itself, which
    no [except] clause of the module catches, and not
    NoSchemaRegistryAvailable. *)
Theorem unreachable_registry_raises_requests_error
    (server : Server) (self : SchemaRegistryManager) (subject : string)
    (manager_hostname manager_port : string) (w : World) :
  subject <> "" ->
  (forall rq, server (requests_sent w) rq = Unreachable) ->
  fst (get_config server self w) = Exc RequestsConnectionError /\
  fst (get_subjects server self w) = Exc RequestsConnectionError /\
  fst (get_subject_versions server self subject w) = Exc RequestsConnectionError /\
  fst (delete_subject server self subject w) = Exc RequestsConnectionError /\
  fst (__init__ server manager_hostname manager_port w) = Exc RequestsConnectionError /\
  RequestsConnectionError <> NoSchemaRegistryAvailable.
Proof.
  intros Hsub Hs.
  unfold __init__, get_config, get_subjects, get_subject_versions, delete_subject.
  destruct subject as [|c subject']; [congruence|]. cbn [String.length Nat.eqb].
  unfold bind at 9.
  rewrite !exchange, !Hs. repeat split. discriminate.
Qed.

Lemma unreachable_registry_raises_requests_error_witness :
  fst (get_config (Samples.scripted []) Samples.registry []) = Exc RequestsConnectionError /\
  fst (get_subjects (Samples.scripted []) Samples.registry []) = Exc RequestsConnectionError /\
  fst (get_subject_versions (Samples.scripted []) Samples.registry "orders-value" [])
  = Exc RequestsConnectionError /\
  fst (delete_subject (Samples.scripted []) Samples.registry "orders-value" [])
  = Exc RequestsConnectionError /\
  fst (__init__ (Samples.scripted []) "registry" "8081" []) = Exc RequestsConnectionError /\
  RequestsConnectionError <> NoSchemaRegistryAvailable.
Proof.
  apply (unreachable_registry_raises_requests_error
           (Samples.scripted []) Samples.registry "orders-value" "registry" "8081" []).
  - discriminate.
  - reflexivity.
Defined.

(** X23: [get_config], [get_subjects], [get_subject_versions] and
    [delete_subject] each send one request and, when it is answered,
    raise HTTPError on every status from 400 to 599, a 404 like any other,
    and otherwise return the JSON body of the answer as it is. *)
Theorem single_request_methods
    (server : Server) (self : SchemaRegistryManager) (subject : string) (w : World) :
  subject <> "" ->
  let outcome_of rq :=
    match server (requests_sent w) rq with
    | Unreachable => Exc RequestsConnectionError
    | Replied r =>
        if ((400 <=? status_code r) && (status_code r <? 600))%Z
        then Exc HTTPError else json r
    end in
  get_config server self w
  = (outcome_of (request self GET "/config"), w ++ [Sent (request self GET "/config")]) /\
  get_subjects server self w
  = (outcome_of (request self GET "/subjects"),
     w ++ [Sent (request self GET "/subjects")]) /\
  get_subject_versions server self subject w
  = (outcome_of (request self GET ("/subjects/" ++ subject ++ "/versions")),
     w ++ [Sent (request self GET ("/subjects/" ++ subject ++ "/versions"))]) /\
  delete_subject server self subject w
  = (outcome_of (request self DELETE ("/subjects/" ++ subject)),
     w ++ [Sent (request self DELETE ("/subjects/" ++ subject))]).
Proof.
  intros Hsub outcome_of.
  unfold get_config, get_subjects, get_subject_versions, delete_subject.
  destruct subject as [|c subject']; [congruence|]. cbn [String.length Nat.eqb].
  rewrite !exchange. repeat split.
Qed.

Lemma single_request_methods_witness :
  delete_subject (Samples.scripted [Samples.status 404]) Samples.registry "orders-value" []
  = (Exc HTTPError, [Sent (request Samples.registry DELETE "/subjects/orders-value")]) /\
  get_subject_versions (Samples.scripted [Samples.ok (PList [PInt 1; PInt 2])])
    Samples.registry "orders-value" []
  = (Ret (PList [PInt 1; PInt 2]),
     [Sent (request Samples.registry GET "/subjects/orders-value/versions")]).
Proof.
  split.
  - refine (proj2 (proj2 (proj2 (single_request_methods
                                   (Samples.scripted [Samples.status 404])
                                   Samples.registry "orders-value" [] _)))).
    discriminate.
  - refine (proj1 (proj2 (proj2 (single_request_methods
                                   (Samples.scripted [Samples.ok (PList [PInt 1; PInt 2])])
                                   Samples.registry "orders-value" [] _)))).
    discriminate.
Defined.

(** X24: the constructor of the registry manager asks for /config once
    and, unlike the constructor of the Connect manager, fails on an error
    status (HTTPError) and on an answer without a JSON body
    (JSONDecodeError); on any other answer it returns the manager that
    addresses "<hostname>:<port>". *)
Theorem init_needs_the_config
    (server : Server) (manager_hostname manager_port : string) (w : World) (r : Response) :
  let self := {| _manager := manager_hostname;
                 _manager_port := manager_port;
                 _manager_ip := manager_hostname ++ ":" ++ manager_port |} in
  server (requests_sent w) (request self GET "/config") = Replied r ->
  __init__ server manager_hostname manager_port w
  = (if ((400 <=? status_code r) && (status_code r <? 600))%Z then Exc HTTPError
     else match body r with
          | Some _ => Ret self
          | None => Exc JSONDecodeError
          end,
     w ++ [Sent (request self GET "/config")]).
Proof.
  intros self Hs. unfold __init__, get_config. fold self.
  unfold bind at 1. rewrite exchange, Hs.
  destruct ((400 <=? status_code r) && (status_code r <? 600))%Z; [reflexivity|].
  unfold json. now destruct (body r).
Qed.

Lemma init_needs_the_config_witness :
  __init__ (Samples.scripted [Samples.status 500]) "registry" "8081" []
  = (Exc HTTPError, [Sent (request Samples.registry GET "/config")]).
Proof.
  refine (init_needs_the_config (Samples.scripted [Samples.status 500])
            "registry" "8081" [] {| status_code := 500; body := None |} _).
  reflexivity.
Defined.

(** *** The methods that take a version *)

Lemma resolve_latest
    (server : Server) (self : SchemaRegistryManager) (subject : string) (w : World) :
  subject <> "" ->
  resolve_version server self subject None w
  = (match server (requests_sent w)
                  (request self GET ("/subjects/" ++ subject ++ "/versions")) with
     | Unreachable => Exc RequestsConnectionError
     | Replied r =>
         if ((400 <=? status_code r) && (status_code r <? 600))%Z
         then Exc HTTPError else (versions <- json r ;; py_max versions)
     end,
     w ++ [Sent (request self GET ("/subjects/" ++ subject ++ "/versions"))]).
Proof.
  intros Hsub. unfold resolve_version, get_subject_versions.
  destruct subject as [|c subject']; [congruence|]. cbn [String.length Nat.eqb].
  unfold bind at 1. rewrite exchange. unfold lift.
  destruct (server _ _) as [|r]; [reflexivity|].
  destruct ((400 <=? status_code r) && (status_code r <? 600))%Z; [reflexivity|].
  now destruct (json r).
Qed.

(** X25: with the version omitted, when the listing of the versions is
    answered with an error status or with an empty list,
    [get_subject_schema], [get_subject_schema_id] and
    [delete_subject_version] stop after that one request, with HTTPError
    or with the ValueError of [max] on an empty list: nothing is fetched
    and nothing is deleted. *)
Theorem no_version_no_second_request
    (server : Server) (self : SchemaRegistryManager) (subject : string) (w : World)
    (r : Response) :
  subject <> "" ->
  server (requests_sent w) (request self GET ("/subjects/" ++ subject ++ "/versions"))
    = Replied r ->
  (400 <= status_code r < 600)%Z \/ body r = Some (PList []) ->
  let e := if ((400 <=? status_code r) && (status_code r <? 600))%Z
           then HTTPError else ValueError in
  let w' := w ++ [Sent (request self GET ("/subjects/" ++ subject ++ "/versions"))] in
  get_subject_schema server self subject None w = (Exc e, w') /\
  get_subject_schema_id server self subject None w = (Exc e, w') /\
  delete_subject_version server self subject None w = (Exc e, w').
Proof.
  intros Hsub Hs Hr e w'.
  assert (Hres : resolve_version server self subject None w = (Exc e, w')).
  { rewrite (resolve_latest _ _ _ _ Hsub), Hs. subst e w'. f_equal.
    destruct ((400 <=? status_code r) && (status_code r <? 600))%Z eqn:E; [reflexivity|].
    destruct Hr as [Hr|Hr]; [|unfold json; now rewrite Hr].
    apply andb_false_iff in E as [E|E]; [apply Z.leb_gt in E | apply Z.ltb_ge in E]; lia. }
  unfold get_subject_schema, get_subject_schema_id, delete_subject_version.
  destruct subject as [|c subject']; [congruence|]. cbn [String.length Nat.eqb].
  unfold bind at 1. unfold bind at 4. unfold bind at 7. rewrite !Hres. repeat split.
Qed.

Lemma no_version_no_second_request_witness :
  delete_subject_version (Samples.scripted [Samples.ok (PList [])])
    Samples.registry "orders-value" None []
  = (Exc ValueError, [Sent (request Samples.registry GET "/subjects/orders-value/versions")]).
Proof.
  refine (proj2 (proj2 (no_version_no_second_request
                          (Samples.scripted [Samples.ok (PList [])])
                          Samples.registry "orders-value" []
                          {| status_code := 200; body := Some (PList []) |} _ _ _))).
  - discriminate.
  - reflexivity.
  - right. reflexivity.
Defined.


(** X26: with a version given, [get_subject_schema],
    [get_subject_schema_id] and [delete_subject_version] never list the
    versions: each sends the one request for that version and, when it is
    answered without an error status, returns the JSON body, or its "id"
    entry for [get_subject_schema_id]. *)
Theorem given_version_one_request
    (server : Server) (self : SchemaRegistryManager) (subject : string) (w : World)
    (version : pyval) (text : string) :
  subject <> "" ->
  py_format version = Ret text ->
  let outcome_of rq k :=
    match server (requests_sent w) rq with
    | Unreachable => Exc RequestsConnectionError
    | Replied r =>
        if ((400 <=? status_code r) && (status_code r <? 600))%Z
        then Exc HTTPError else k r
    end in
  let schema_rq :=
    request self GET ("/subjects/" ++ subject ++ "/versions/" ++ text ++ "/schema") in
  let version_rq := request self GET ("/subjects/" ++ subject ++ "/versions/" ++ text) in
  let delete_rq := request self DELETE ("/subjects/" ++ subject ++ "/versions/" ++ text) in
  get_subject_schema server self subject (Some version) w
  = (outcome_of schema_rq json, w ++ [Sent schema_rq]) /\
  get_subject_schema_id server self subject (Some version) w
  = (outcome_of version_rq (fun r => j <- json r ;; get_item j "id"),
     w ++ [Sent version_rq]) /\
  delete_subject_version server self subject (Some version) w
  = (outcome_of delete_rq json, w ++ [Sent delete_rq]).
Proof.
  intros Hsub Hfmt outcome_of schema_rq version_rq delete_rq.
  unfold get_subject_schema, get_subject_schema_id, delete_subject_version, resolve_version.
  destruct subject as [|c subject']; [congruence|]. cbn [String.length Nat.eqb].
  repeat split.
  - unfold bind at 1, ret at 1. unfold bind at 1, lift at 1. rewrite Hfmt.
    now rewrite exchange.
  - unfold bind at 1, ret at 1. unfold bind at 1, lift at 1. rewrite Hfmt.
    now rewrite exchange.
  - unfold bind at 1, ret at 1. unfold bind at 1, lift at 1. rewrite Hfmt.
    now rewrite exchange.
Qed.

Lemma given_version_one_request_witness :
  get_subject_schema_id (Samples.scripted [Samples.ok (PDict [("id", PInt 41)])])
    Samples.registry "orders-value" (Some (PInt 2)) []
  = (Ret (PInt 41),
     [Sent (request Samples.registry GET "/subjects/orders-value/versions/2")]).
Proof.
  refine (proj1 (proj2 (given_version_one_request
                          (Samples.scripted [Samples.ok (PDict [("id", PInt 41)])])
                          Samples.registry "orders-value" [] (PInt 2) "2" _ _))).
  - discriminate.
  - reflexivity.
Defined.

(** X27: with the version omitted and a non-empty list of integer
    versions, [get_subject_schema_id] and [delete_subject_version] send
    two requests, the listing and then the request at the greatest listed
    version, so that the latest version is the one looked up or
    deleted. *)
Theorem latest_version_is_the_greatest
    (server : Server) (self : SchemaRegistryManager) (subject : string) (w : World)
    (r1 : Response) (z : Z) (zs : list Z) :
  subject <> "" ->
  server (requests_sent w) (request self GET ("/subjects/" ++ subject ++ "/versions"))
    = Replied r1 ->
  raise_for_status r1 = None ->
  body r1 = Some (PList (map PInt (z :: zs))) ->
  let latest := str_of_Z (fold_left Z.max zs z) in
  let listing := request self GET ("/subjects/" ++ subject ++ "/versions") in
  snd (get_subject_schema_id server self subject None w)
  = w ++ [Sent listing;
          Sent (request self GET ("/subjects/" ++ subject ++ "/versions/" ++ latest))] /\
  snd (delete_subject_version server self subject None w)
  = w ++ [Sent listing;
          Sent (request self DELETE ("/subjects/" ++ subject ++ "/versions/" ++ latest))] /\
  (forall v, In v (z :: zs) -> (v <= fold_left Z.max zs z)%Z) /\
  In (fold_left Z.max zs z) (z :: zs).
Proof.
  intros Hsub Hs Hok Hb latest listing.
  destruct (py_max_ints z zs) as (Hmax & Hle & Hin).
  assert (Hres : resolve_version server self subject None w
                 = (Ret (PInt (fold_left Z.max zs z)), w ++ [Sent listing])).
  { rewrite (resolve_latest _ _ _ _ Hsub), Hs. f_equal.
    unfold raise_for_status in Hok.
    destruct ((400 <=? status_code r1) && (status_code r1 <? 600))%Z; [discriminate|].
    unfold json. rewrite Hb. exact Hmax. }
  unfold get_subject_schema_id, delete_subject_version.
  destruct subject as [|c subject']; [congruence|]. cbn [String.length Nat.eqb].
  split; [|split; [|now split]].
  - unfold bind at 1. rewrite Hres. unfold bind at 1, lift at 1. cbn [py_format].
    rewrite exchange. cbn [snd]. now rewrite <- app_assoc.
  - unfold bind at 1. rewrite Hres. unfold bind at 1, lift at 1. cbn [py_format].
    rewrite exchange. cbn [snd]. now rewrite <- app_assoc.
Qed.

Lemma latest_version_is_the_greatest_witness :
  snd (delete_subject_version
         (Samples.scripted [Samples.ok (PList [PInt 1; PInt 3; PInt 2]);
                            Samples.ok (PInt 3)])
         Samples.registry "orders-value" None [])
  = [Sent (request Samples.registry GET "/subjects/orders-value/versions");
     Sent (request Samples.registry DELETE "/subjects/orders-value/versions/3")].
Proof.
  refine (proj1 (proj2 (latest_version_is_the_greatest
                          (Samples.scripted [Samples.ok (PList [PInt 1; PInt 3; PInt 2]);
                                             Samples.ok (PInt 3)])
                          Samples.registry "orders-value" []
                          {| status_code := 200; body := Some (PList [PInt 1; PInt 3; PInt 2]) |}
                          1%Z [3%Z; 2%Z] _ _ _ _))).
  - discriminate.
  - reflexivity.
  - reflexivity.
  - reflexivity.
Defined.

(** *** Registering a schema *)

(** X28: [register_schema] sends nothing when the local validation fails:
    a schema that [avro.schema.Parse] rejects with SchemaParseException or
    with KeyError raises SchemaParseException, and a non-empty schema that
    is neither a string nor a dictionary raises TypeError. *)
Theorem register_schema_validates_locally
    (server : Server) (json_loads : string -> option pyval)
    (json_dumps : pyval -> string) (avro_parse : string -> option exn)
    (self : SchemaRegistryManager) (subject : string) (avro_schema : pyval) (w : World) :
  subject <> "" ->
  (forall n, py_len avro_schema = Ret n -> n <> 0%Z) ->
  let text := match avro_schema with PStr s => s | _ => json_dumps avro_schema end in
  ((exists s, avro_schema = PStr s) \/ (exists d, avro_schema = PDict d) ->
   avro_parse text = Some SchemaParseException \/ avro_parse text = Some KeyError ->
   register_schema server json_loads json_dumps avro_parse self subject avro_schema w
   = (Exc SchemaParseException, w)) /\
  (forall l, avro_schema = PList l ->
   register_schema server json_loads json_dumps avro_parse self subject avro_schema w
   = (Exc TypeError, w)).
Proof.
  intros Hsub Hlen text. unfold register_schema.
  destruct subject as [|c subject']; [congruence|]. cbn [String.length Nat.eqb].
  split.
  - intros Hshape Hparse. unfold bind at 1, lift at 1.
    destruct Hshape as [[s ->]|[d ->]]; cbn [py_len] in *.
    + destruct (Z.eqb_spec (Z.of_nat (String.length s)) 0) as [E|_];
        [now destruct (Hlen _ eq_refl)|].
      unfold bind, lift, validated. subst text.
      now destruct Hparse as [-> | ->].
    + destruct (Z.eqb_spec (Z.of_nat (length d)) 0) as [E|_];
        [now destruct (Hlen _ eq_refl)|].
      unfold bind, lift, validated. subst text.
      now destruct Hparse as [-> | ->].
  - intros l ->. unfold bind at 1, lift at 1. cbn [py_len] in *.
    destruct (Z.eqb_spec (Z.of_nat (length l)) 0) as [E|_];
      [now destruct (Hlen _ eq_refl)|].
    reflexivity.
Qed.

Lemma register_schema_validates_locally_witness :
  register_schema (Samples.scripted []) Samples.no_loads Samples.no_dumps
    (fun _ => Some KeyError) Samples.registry "orders-value"
    (PDict [("type", PStr "bogus")]) []
  = (Exc SchemaParseException, []).
Proof.
  refine (proj1 (register_schema_validates_locally
                   (Samples.scripted []) Samples.no_loads Samples.no_dumps
                   (fun _ => Some KeyError) Samples.registry "orders-value"
                   (PDict [("type", PStr "bogus")]) [] _ _) _ _).
  - discriminate.
  - intros n [= <-]. discriminate.
  - right. eexists. reflexivity.
  - right. reflexivity.
Defined.

(** A schema that passes the two local tests goes to the registry. *)
Lemma register_schema_valid
    (server : Server) (json_loads : string -> option pyval)
    (json_dumps : pyval -> string) (avro_parse : string -> option exn)
    (self : SchemaRegistryManager) (subject : string) (avro_schema schema : pyval)
    (n : Z) (w : World) :
  subject <> "" ->
  py_len avro_schema = Ret n ->
  n <> 0%Z ->
  validated json_loads json_dumps avro_parse avro_schema = Ret schema ->
  register_schema server json_loads json_dumps avro_parse self subject avro_schema w
  = (t <~ attempt server
            {| verb := POST;
               url := endpoint self ("/subjects/" ++ subject ++ "/versions");
               headers := [("Content-Type", "application/vnd.schemaregistry.v1+json")];
               json_arg := Some (PStr (json_dumps
                                         (PDict [("schema", PStr (json_dumps schema))]))) |} ;;
     r <~ checked t ;;
     lift (j <- json r ;; get_item j "id")) w.
Proof.
  intros Hsub Hlen Hn Hval. unfold register_schema.
  destruct subject as [|c subject']; [congruence|]. cbn [String.length Nat.eqb].
  unfold bind at 1, lift at 1. rewrite Hlen.
  apply Z.eqb_neq in Hn. rewrite Hn.
  unfold bind at 1, lift at 1. rewrite Hval. reflexivity.
Qed.

(** X29: a schema that passes the local validation is posted once to
    /subjects/<subject>/versions, with the registry's content type, as the
    JSON text of an object whose "schema" entry is the JSON text of the
    schema; a schema given as a JSON string and the dictionary it decodes
    to are posted alike. *)
Theorem register_schema_string_or_dict
    (server : Server) (json_loads : string -> option pyval)
    (json_dumps : pyval -> string) (avro_parse : string -> option exn)
    (self : SchemaRegistryManager) (subject : string) (s : string) (d : dict) (w : World) :
  subject <> "" -> s <> "" -> d <> [] ->
  json_loads s = Some (PDict d) ->
  avro_parse s = None ->
  avro_parse (json_dumps (PDict d)) = None ->
  let rq := {| verb := POST;
               url := endpoint self ("/subjects/" ++ subject ++ "/versions");
               headers := [("Content-Type", "application/vnd.schemaregistry.v1+json")];
               json_arg := Some (PStr (json_dumps
                                         (PDict [("schema", PStr (json_dumps (PDict d)))]))) |} in
  snd (register_schema server json_loads json_dumps avro_parse self subject (PDict d) w)
  = w ++ [Sent rq] /\
  register_schema server json_loads json_dumps avro_parse self subject (PStr s) w
  = register_schema server json_loads json_dumps avro_parse self subject (PDict d) w.
Proof.
  intros Hsub Hs Hd Hl Hp1 Hp2 rq.
  rewrite (register_schema_valid server json_loads json_dumps avro_parse self subject
             (PStr s) (PDict d) (Z.of_nat (String.length s)) w Hsub eq_refl).
  2:{ destruct s; [congruence|]. cbn [String.length]. lia. }
  2:{ unfold validated, loads. now rewrite Hp1, Hl. }
  rewrite (register_schema_valid server json_loads json_dumps avro_parse self subject
             (PDict d) (PDict d) (Z.of_nat (length d)) w Hsub eq_refl).
  2:{ destruct d; [congruence|]. cbn [length]. lia. }
  2:{ unfold validated. now rewrite Hp2. }
  split; [|reflexivity].
  now rewrite exchange.
Qed.

Lemma register_schema_string_or_dict_witness :
  snd (register_schema (Samples.scripted []) Samples.loads_string_schema Samples.no_dumps
         Samples.no_parse Samples.registry "orders-value"
         (PDict [("type", PStr "string")]) [])
  = [Sent {| verb := POST;
             url := "http://registry:8081/subjects/orders-value/versions";
             headers := [("Content-Type", "application/vnd.schemaregistry.v1+json")];
             json_arg := Some (PStr "") |}] /\
  register_schema (Samples.scripted []) Samples.loads_string_schema Samples.no_dumps
    Samples.no_parse Samples.registry "orders-value" (PStr Samples.string_schema_json) []
  = register_schema (Samples.scripted []) Samples.loads_string_schema Samples.no_dumps
      Samples.no_parse Samples.registry "orders-value" (PDict [("type", PStr "string")]) [].
Proof.
  refine (register_schema_string_or_dict
            (Samples.scripted []) Samples.loads_string_schema Samples.no_dumps
            Samples.no_parse Samples.registry "orders-value"
            Samples.string_schema_json [("type", PStr "string")] [] _ _ _ _ _ _).
  - discriminate.
  - discriminate.
  - discriminate.
  - reflexivity.
  - reflexivity.
  - reflexivity.
Defined.

End RegistryExtras.
